(** * QuirkNotes backend: a model of [backend-example/server.js]

    The server is an Express application over two MongoDB collections,
    [users] and [notes].  Each route handler is embedded as a program that
    awaits store operations one at a time; the programs are run against an
    explicit database state, either one request after the other or, for the
    registration race, interleaved at the [await] points.

    The libraries the handlers call (bcrypt, jsonwebtoken, bson's ObjectId)
    are parameters of the development.  Request bodies carry string fields
    that may be absent; other JSON values are outside the model.  A store
    operation always resolves, except an insert that meets a duplicate key;
    a store that is down is outside the model. *)

From Stdlib Require Import String Ascii List NArith Bool Arith Lia.
From Stdlib Require Import HexadecimalString HexadecimalN.
Import ListNotations.
Open Scope string_scope.
Open Scope bool_scope.

(** ** JavaScript values used by the handlers *)

(** A body field or a header: [None] is [undefined]. *)
Definition JsString := option string.

(** [!v] for a field that is a string or undefined. *)
Definition falsy (v : JsString) : bool :=
  match v with
  | None => true
  | Some s => s =? ""
  end.

(** The string a truthy field holds. *)
Definition truthy (v : JsString) : option string :=
  match v with
  | None => None
  | Some s => if s =? "" then None else Some s
  end.

(** [v || d]. *)
Definition js_or (v : JsString) (d : string) : string :=
  match truthy v with
  | Some s => s
  | None => d
  end.

(** [s.split(sep)] for a one-character separator. *)
Fixpoint split (sep : ascii) (s : string) : list string :=
  match s with
  | EmptyString => [""]
  | String c s' =>
      if Ascii.eqb c sep then "" :: split sep s'
      else match split sep s' with
           | w :: ws => String c w :: ws
           | [] => [String c ""]
           end
  end.

(** ** Documents *)

(** A BSON ObjectId is twelve bytes; it is kept as the number they spell. *)
Definition ObjectId := N.
Bind Scope N_scope with ObjectId.

Module User.
Record t := mk { _id : ObjectId; username : string; password : string }.
End User.

Module Note.
Record t := mk
  { _id : ObjectId; title : string; content : string; username : string }.
End Note.

(** The database [quirknotes]: the two collections of [COLLECTIONS], in
    insertion order, and whether the deployment has put a unique index on
    [users.username] (the server itself never creates one). *)
Record Db := mkDb
  { users : list User.t;
    notes : list Note.t;
    users_username_unique : bool }.

(** ** Store operations *)

Inductive StoreOp :=
| users_findOne (username : string)
| users_insertOne (doc : User.t)
| notes_insertOne (doc : Note.t)
| notes_findOne (username : string) (_id : ObjectId)
| notes_find (username : string)
| notes_findOneAndDelete (username : string) (_id : ObjectId)
| notes_findOneAndUpdate (username : string) (_id : ObjectId)
                         (title content : string).

Inductive Exn :=
| TypeError            (* reading [split] of undefined *)
| MongoServerError     (* E11000 duplicate key *)
| BSONError.           (* [new ObjectId] on a string it rejects *)

(** What the awaited promise resolves to; [inl] is a rejection. *)
Definition Reply (op : StoreOp) : Type :=
  match op with
  | users_findOne _ => option User.t
  | users_insertOne _ => (Exn + ObjectId)%type
  | notes_insertOne _ => (Exn + ObjectId)%type
  | notes_findOne _ _ => option Note.t
  | notes_find _ => list Note.t
  | notes_findOneAndDelete _ _ => option Note.t
  | notes_findOneAndUpdate _ _ _ _ => option Note.t
  end.

Definition on_notes (op : StoreOp) : bool :=
  match op with
  | users_findOne _ | users_insertOne _ => false
  | _ => true
  end.

Definition owned_by (username : string) (_id : ObjectId) (n : Note.t) : bool :=
  (Note.username n =? username) && (Note._id n =? _id)%N.

(** Remove the first document the filter selects. *)
Fixpoint delete_first (f : Note.t -> bool) (l : list Note.t) : list Note.t :=
  match l with
  | [] => []
  | n :: l' => if f n then l' else n :: delete_first f l'
  end.

(** Apply [g] to the first document the filter selects. *)
Fixpoint update_first (f : Note.t -> bool) (g : Note.t -> Note.t)
         (l : list Note.t) : list Note.t :=
  match l with
  | [] => []
  | n :: l' => if f n then g n :: l' else n :: update_first f g l'
  end.

(** [$set: {title, content}]. *)
Definition set_fields (title content : string) (n : Note.t) : Note.t :=
  Note.mk (Note._id n) title content (Note.username n).

Definition set_notes (db : Db) (l : list Note.t) : Db :=
  mkDb (users db) l (users_username_unique db).

Definition set_users (db : Db) (l : list User.t) : Db :=
  mkDb l (notes db) (users_username_unique db).

(** One store operation on the database.  [_id] is unique in every
    collection, so an insert with a used [_id] is rejected, and so is a user
    insert that repeats a username when the collection has the unique
    index. *)
Definition exec (op : StoreOp) (db : Db) : Reply op * Db :=
  match op as o return Reply o * Db with
  | users_findOne username =>
      (find (fun u => User.username u =? username) (users db), db)
  | users_insertOne doc =>
      if existsb (fun u => (User._id u =? User._id doc)%N) (users db)
         || (users_username_unique db
             && existsb (fun u => User.username u =? User.username doc)
                        (users db))
      then (inl MongoServerError, db)
      else (inr (User._id doc), set_users db (users db ++ [doc]))
  | notes_insertOne doc =>
      if existsb (fun n => (Note._id n =? Note._id doc)%N) (notes db)
      then (inl MongoServerError, db)
      else (inr (Note._id doc), set_notes db (notes db ++ [doc]))
  | notes_findOne username _id =>
      (find (owned_by username _id) (notes db), db)
  | notes_find username =>
      (filter (fun n => Note.username n =? username) (notes db), db)
  | notes_findOneAndDelete username _id =>
      (find (owned_by username _id) (notes db),
       set_notes db (delete_first (owned_by username _id) (notes db)))
  | notes_findOneAndUpdate username _id title content =>
      (find (owned_by username _id) (notes db),
       set_notes db (update_first (owned_by username _id)
                                  (set_fields title content) (notes db)))
  end.

(** ** Asynchronous programs *)

(** A handler body: it returns, or awaits one store operation and goes on
    with the reply. *)
Inductive Async (A : Type) : Type :=
| Return (a : A)
| Await (op : StoreOp) (k : Reply op -> Async A).

Arguments Return {A} a.
Arguments Await {A} op k.

Notation "x <- 'await' op ;; k" := (Await op (fun x => k))
  (at level 61, op at next level, right associativity).

(** Run a program to its end with no other request in between; the list is
    the store operations it performed, in order. *)
Fixpoint run {A : Type} (p : Async A) (db : Db) : A * Db * list StoreOp :=
  match p with
  | Return a => (a, db, [])
  | Await op k =>
      let (r, db1) := exec op db in
      let '(a, db2, log) := run (k r) db1 in
      (a, db2, op :: log)
  end.

(** One turn of the event loop for a pending program. *)
Definition resume {A : Type} (p : Async A) (db : Db) : Async A * Db :=
  match p with
  | Return a => (Return a, db)
  | Await op k => let (r, db1) := exec op db in (k r, db1)
  end.

(** Two requests in flight; the schedule says whose turn comes next
    ([true]: the first). *)
Fixpoint interleave {A B : Type} (schedule : list bool)
         (p : Async A) (q : Async B) (db : Db) : Async A * Async B * Db :=
  match schedule with
  | [] => (p, q, db)
  | true :: rest => let (p', db') := resume p db in interleave rest p' q db'
  | false :: rest => let (q', db') := resume q db in interleave rest p q' db'
  end.

(** ** Requests and responses *)

Module Body.
Record t := mk
  { username : JsString; password : JsString;
    title : JsString; content : JsString }.
End Body.

Record Request := mkRequest
  { params_noteId : string;
    headers_authorization : JsString;
    body : Body.t }.

Inductive Payload :=
| error (msg : string)                          (* [{error: msg}] *)
| error_message (e : Exn)                       (* [{error: error.message}] *)
| response_token (response token : string)      (* [{response, token}] *)
| text (s : string)                             (* [res.send(s)] *)
| response_insertedId (response : string) (insertedId : ObjectId)
| response_note (data : Note.t)                 (* [{response: data}] *)
| response_notes (data : list Note.t)
| response (msg : string).                      (* [{response: msg}] *)

Record Response := mkResponse { status : nat; payload : Payload }.

(** What becomes of a request: a response is sent, or the promise of the
    [jwt.verify] callback rejects outside the handler's [try] and nothing is
    sent. *)
Inductive Outcome :=
| Sent (res : Response)
| Unhandled (e : Exn).

(** What the process supplies to one request: the clock in seconds, the
    salt bcrypt draws, the [_id] the driver generates for an insert. *)
Record Env := mkEnv { now : nat; salt : string; fresh_id : ObjectId }.

(** ** The route handlers *)

(** The libraries the server imports, as far as the handlers use them. *)
Class Libraries := mkLibraries
  { (** [bcrypt.hash(data, saltRounds)] with the salt it drew, and
        [bcrypt.compare(data, encrypted)]. *)
    bcrypt_hash : string -> nat -> string -> string;
    bcrypt_compare : string -> string -> bool;
    (** [jwt.sign({username}, key, {expiresIn})] at a clock time, and
        [jwt.verify(token, key)] at a clock time: the decoded username, or
        [None] for any error. *)
    jwt_sign : string -> string -> nat -> nat -> string;
    jwt_verify : string -> string -> nat -> option string;
    (** [ObjectId.isValid(id)], [new ObjectId(id)] ([None]: it throws) and
        the hexadecimal string an ObjectId is serialised to. *)
    ObjectId_isValid : string -> bool;
    ObjectId_new : string -> option ObjectId;
    ObjectId_toHexString : ObjectId -> string }.

Section Server.

Context {lib : Libraries}.

Definition secret_key : string := "secret-key".
Definition expiresIn : nat := 3600.
Definition saltRounds : nat := 10.

(** [req.headers.authorization.split(" ")[1]] for a header that is set. *)
Definition bearer (authorization : string) : option string :=
  nth_error (split " " authorization) 1.

(** [jwt.verify(token, "secret-key", ...)]; an undefined token is an
    error. *)
Definition verify (token : option string) (clock : nat) : option string :=
  match token with
  | None => None
  | Some t => jwt_verify t secret_key clock
  end.

(** The lines every note route shares: read the token off the header (a
    missing header throws inside the [try]), verify it, and hand the
    decoded username to the callback. *)
Definition with_token (env : Env) (req : Request)
           (callback : string -> Async Outcome) : Async Outcome :=
  match headers_authorization req with
  | None => Return (Sent (mkResponse 500 (error_message TypeError)))
  | Some authorization =>
      match verify (bearer authorization) (now env) with
      | None => Return (Sent (mkResponse 401 (text "Unauthorized.")))
      | Some decoded_username => callback decoded_username
      end
  end.

(** [POST /registerUser] *)
Definition registerUser (env : Env) (req : Request) : Async Outcome :=
  match truthy (Body.username (body req)),
        truthy (Body.password (body req)) with
  | Some username, Some password =>
      existingUser <- await users_findOne username ;;
      match existingUser with
      | Some _ =>
          Return (Sent (mkResponse 400 (error "Username already exists.")))
      | None =>
          let hashedPassword := bcrypt_hash password saltRounds (salt env) in
          inserted <- await users_insertOne
                        (User.mk (fresh_id env) username hashedPassword) ;;
          match inserted with
          | inl e => Return (Sent (mkResponse 500 (error_message e)))
          | inr _ =>
              let token := jwt_sign username secret_key expiresIn (now env) in
              Return (Sent (mkResponse 201
                (response_token "User registered successfully." token)))
          end
      end
  | _, _ =>
      Return (Sent (mkResponse 400
        (error "Username and password both needed to register.")))
  end.

(** [POST /loginUser] *)
Definition loginUser (env : Env) (req : Request) : Async Outcome :=
  match truthy (Body.username (body req)),
        truthy (Body.password (body req)) with
  | Some username, Some password =>
      user <- await users_findOne username ;;
      match user with
      | Some user =>
          if bcrypt_compare password (User.password user) then
            let token := jwt_sign username secret_key expiresIn (now env) in
            Return (Sent (mkResponse 200
              (response_token "User logged in succesfully." token)))
          else
            Return (Sent (mkResponse 401 (error "Authentication failed.")))
      | None =>
          Return (Sent (mkResponse 401 (error "Authentication failed.")))
      end
  | _, _ =>
      Return (Sent (mkResponse 400
        (error "Username and password both needed to login.")))
  end.

(** [POST /postNote] *)
Definition postNote (env : Env) (req : Request) : Async Outcome :=
  match truthy (Body.title (body req)),
        truthy (Body.content (body req)) with
  | Some title, Some content =>
      with_token env req (fun decoded_username =>
        result <- await notes_insertOne
                    (Note.mk (fresh_id env) title content decoded_username) ;;
        match result with
        | inl e => Return (Unhandled e)
        | inr insertedId =>
            Return (Sent (mkResponse 200
              (response_insertedId "Note added succesfully." insertedId)))
        end)
  | _, _ =>
      Return (Sent (mkResponse 400
        (error "Title and content are both required.")))
  end.

Definition unauthorized : Outcome :=
  Sent (mkResponse 401 (text "Unauthorized.")).

Definition not_found : Outcome :=
  Sent (mkResponse 404 (error "Unable to find note with given ID.")).

Definition invalid_id : Outcome :=
  Sent (mkResponse 400 (error "Invalid note ID.")).

(** [GET /getNote/:noteId] *)
Definition getNote (env : Env) (req : Request) : Async Outcome :=
  let noteId := params_noteId req in
  if negb (ObjectId_isValid noteId) then Return invalid_id
  else
    with_token env req (fun decoded_username =>
      match ObjectId_new noteId with
      | None => Return (Unhandled BSONError)
      | Some _id =>
          data <- await notes_findOne decoded_username _id ;;
          match data with
          | None => Return not_found
          | Some data => Return (Sent (mkResponse 200 (response_note data)))
          end
      end).

(** [GET /getAllNotes] *)
Definition getAllNotes (env : Env) (req : Request) : Async Outcome :=
  with_token env req (fun decoded_username =>
    data <- await notes_find decoded_username ;;
    Return (Sent (mkResponse 200 (response_notes data)))).

(** [GET /deleteNote/:noteId]; [findOneAndDelete] resolves to the deleted
    document, or to null when the filter selects none. *)
Definition deleteNote (env : Env) (req : Request) : Async Outcome :=
  let noteId := params_noteId req in
  if negb (ObjectId_isValid noteId) then Return invalid_id
  else
    with_token env req (fun decoded_username =>
      match ObjectId_new noteId with
      | None => Return (Unhandled BSONError)
      | Some _id =>
          data <- await notes_findOneAndDelete decoded_username _id ;;
          match data with
          | None => Return not_found
          | Some _ =>
              Return (Sent (mkResponse 200 (response
                ("Document with ID " ++ noteId ++ " deleted succesfully."))))
          end
      end).

(** [GET /editNote/:noteId] *)
Definition editNote (env : Env) (req : Request) : Async Outcome :=
  let noteId := params_noteId req in
  if negb (ObjectId_isValid noteId) then Return invalid_id
  else
    with_token env req (fun decoded_username =>
      if falsy (Body.title (body req)) && falsy (Body.content (body req))
      then
        Return (Sent (mkResponse 400
          (error "A title or content are needed to update the note")))
      else
        match ObjectId_new noteId with
        | None => Return (Unhandled BSONError)
        | Some _id =>
            originalNote <- await notes_findOne decoded_username _id ;;
            match originalNote with
            | None => Return not_found
            | Some originalNote =>
                _ <- await notes_findOneAndUpdate decoded_username _id
                       (js_or (Body.title (body req))
                              (Note.title originalNote))
                       (js_or (Body.content (body req))
                              (Note.content originalNote)) ;;
                Return (Sent (mkResponse 200 (response
                  ("Document with ID " ++ noteId ++ " properly updated."))))
            end
        end).

(** The responses the theorems name. *)
Definition updated (noteId : string) : Outcome :=
  Sent (mkResponse 200
    (response ("Document with ID " ++ noteId ++ " properly updated."))).

Definition deleted (noteId : string) : Outcome :=
  Sent (mkResponse 200
    (response ("Document with ID " ++ noteId ++ " deleted succesfully."))).

Definition nothing_to_update : Outcome :=
  Sent (mkResponse 400
    (error "A title or content are needed to update the note")).

(** The application's routes. *)
Inductive Route :=
| POST_registerUser | POST_loginUser | POST_postNote
| GET_getNote | GET_getAllNotes | GET_deleteNote | GET_editNote.

Definition app (r : Route) : Env -> Request -> Async Outcome :=
  match r with
  | POST_registerUser => registerUser
  | POST_loginUser => loginUser
  | POST_postNote => postNote
  | GET_getNote => getNote
  | GET_getAllNotes => getAllNotes
  | GET_deleteNote => deleteNote
  | GET_editNote => editNote
  end.

(** Requests served one after the other. *)
Fixpoint serve (reqs : list (Route * Env * Request)) (db : Db) : Db :=
  match reqs with
  | [] => db
  | (r, env, req) :: rest => serve rest (snd (fst (run (app r env req) db)))
  end.

(** The identity a request acts under: the username its token decodes to
    at the request's clock time, when the token verifies. *)
Definition identity (env : Env) (req : Request) : option string :=
  match headers_authorization req with
  | None => None
  | Some authorization => verify (bearer authorization) (now env)
  end.

End Server.

(** ** Observations on outcomes and databases *)

(** The notes a response carries. *)
Definition returned_notes (o : Outcome) : list Note.t :=
  match o with
  | Sent {| payload := response_note data |} => [data]
  | Sent {| payload := response_notes data |} => data
  | _ => []
  end.

(** The status a client sees, if any response is sent. *)
Definition status_of (o : Outcome) : option nat :=
  match o with
  | Sent res => Some (status res)
  | Unhandled _ => None
  end.

Definition notes_of (username : string) (db : Db) : list Note.t :=
  filter (fun n => Note.username n =? username) (notes db).

Definition users_named (username : string) (db : Db) : list User.t :=
  filter (fun u => User.username u =? username) (users db).

(** The username a note operation names, in its filter or in the document
    it inserts. *)
Definition op_owner (op : StoreOp) : option string :=
  match op with
  | users_findOne _ | users_insertOne _ => None
  | notes_insertOne doc => Some (Note.username doc)
  | notes_findOne username _ => Some username
  | notes_find username => Some username
  | notes_findOneAndDelete username _ => Some username
  | notes_findOneAndUpdate username _ _ _ => Some username
  end.

(** A string with no space in it, as a bearer token must be for
    [split(" ")[1]] to return it whole. *)
Fixpoint no_space (s : string) : bool :=
  match s with
  | EmptyString => true
  | String c s' => negb (Ascii.eqb c " ") && no_space s'
  end.

(** Every stored note has a title and a content. *)
Definition notes_filled (db : Db) : Prop :=
  Forall (fun n => Note.title n <> "" /\ Note.content n <> "") (notes db).

(** No two user records share a username. *)
Definition unique_usernames (db : Db) : Prop :=
  NoDup (map User.username (users db)).

(** A user record as registration writes it: a username, and for password
    the bcrypt hash of a non-empty password at [saltRounds]. *)
Definition hashed `{Libraries} (u : User.t) : Prop :=
  User.username u <> ""
  /\ exists password salt,
      password <> ""
      /\ User.password u = bcrypt_hash password saltRounds salt.

(** [_id] is unique within the notes collection. *)
Definition unique_ids (db : Db) : Prop := NoDup (map Note._id (notes db)).

(** The identifier and owner of every note, in store order. *)
Definition keys (db : Db) : list (ObjectId * string) :=
  map (fun n => (Note._id n, Note.username n)) (notes db).

(** ** A reference instance of the libraries

    Small executable stand-ins that meet the contracts the theorems assume,
    so that the handlers can be run on concrete requests. *)

Module Reference.
(** The digest keeps the data in front of the salt. *)
Definition hash (data : string) (rounds : nat) (salt : string) : string :=
  data ++ "$" ++ salt.

Definition compare (data encrypted : string) : bool :=
  prefix (data ++ "$") encrypted.

Fixpoint tally (n : nat) : string :=
  match n with
  | O => ""
  | S n' => String "x" (tally n')
  end.

Fixpoint untally (s : string) (n : nat) : option (nat * string) :=
  match s with
  | EmptyString => None
  | String c s' =>
      if Ascii.eqb c "x" then untally s' (S n)
      else if Ascii.eqb c "." then Some (n, s')
      else None
  end.

Fixpoint strip (p s : string) : option string :=
  match p, s with
  | EmptyString, _ => Some s
  | String c p', String d s' => if Ascii.eqb c d then strip p' s' else None
  | String _ _, EmptyString => None
  end.

(** A token spells its expiry in tally marks, then the key and the
    username. *)
Definition sign (username key : string) (expires clock : nat) : string :=
  tally (clock + expires) ++ "." ++ key ++ username.

Definition verify (token key : string) (clock : nat) : option string :=
  match untally token 0 with
  | Some (exp, rest) => if Nat.ltb clock exp then strip key rest else None
  | None => None
  end.

(** Identifiers are written in hexadecimal. *)
Definition new (id : string) : option ObjectId :=
  option_map N.of_hex_uint (NilEmpty.uint_of_string id).

Definition isValid (id : string) : bool :=
  match new id with
  | Some _ => true
  | None => false
  end.

Definition toHexString (id : ObjectId) : string :=
  NilEmpty.string_of_uint (N.to_hex_uint id).

Definition lib : Libraries :=
  mkLibraries hash compare sign verify isValid new toHexString.

(** A small scenario: alice owns one note, bob owns none. *)
Definition empty : Db := mkDb [] [] false.

Definition empty_indexed : Db := mkDb [] [] true.

Definition at_clock (clock : nat) (id : N) : Env :=
  mkEnv clock "pepper" id.

Definition token_for (username : string) : string :=
  sign username secret_key expiresIn 0.

Definition bearing (token : string) : JsString := Some ("Bearer " ++ token).

Definition credentials (username password : string) : Request :=
  mkRequest "" None (Body.mk (Some username) (Some password) None None).

Definition request (authorization : JsString) (noteId : string)
           (title content : JsString) : Request :=
  mkRequest noteId authorization (Body.mk None None title content).

Definition alice_note : Note.t := Note.mk 10%N "t" "c" "alice".

Definition alice_db : Db := mkDb [] [alice_note] false.

Definition alice_user : User.t :=
  User.mk 1 "alice" (hash "pw" saltRounds "pepper").

Definition alice_registered : Db := mkDb [alice_user] [] false.

Definition as_alice : JsString := bearing (token_for "alice").

Definition as_bob : JsString := bearing (token_for "bob").
End Reference.

(** * Properties *)

(** ** Facts about the store's list operations *)

Section StoreFacts.

Lemma owned_by_iff (u : string) (i : ObjectId) (n : Note.t) :
  owned_by u i n = true <-> Note.username n = u /\ Note._id n = i.
Proof.
  unfold owned_by. rewrite andb_true_iff, String.eqb_eq, N.eqb_eq. tauto.
Qed.

Lemma owned_by_self (n : Note.t) :
  owned_by (Note.username n) (Note._id n) n = true.
Proof. apply owned_by_iff. split; reflexivity. Qed.

Lemma same_id_same_note (l : list Note.t) (a b : Note.t) :
  NoDup (map Note._id l) -> In a l -> In b l ->
  Note._id a = Note._id b -> a = b.
Proof.
  induction l as [|x l IH]; simpl; intros Hnd Ha Hb Hid; [tauto|].
  inversion Hnd as [|? ? Hx Hl]; subst.
  destruct Ha as [-> | Ha], Hb as [-> | Hb]; auto.
  - exfalso. apply Hx. rewrite Hid. now apply in_map.
  - exfalso. apply Hx. rewrite <- Hid. now apply in_map.
Qed.

Lemma find_owned_In (u : string) (i : ObjectId) (l : list Note.t) (n : Note.t) :
  find (owned_by u i) l = Some n ->
  In n l /\ Note.username n = u /\ Note._id n = i.
Proof.
  intros H. apply find_some in H. now rewrite owned_by_iff in H.
Qed.

Lemma find_foreign (l : list Note.t) (n : Note.t) (u : string) :
  NoDup (map Note._id l) -> In n l -> Note.username n <> u ->
  find (owned_by u (Note._id n)) l = None.
Proof.
  intros Hnd Hin Hne.
  destruct (find (owned_by u (Note._id n)) l) as [m|] eqn:E; [|reflexivity].
  apply find_owned_In in E. destruct E as (Hm & Hu & Hi).
  assert (m = n) by (eapply same_id_same_note; eauto). subst m. contradiction.
Qed.

Lemma find_own (l : list Note.t) (n : Note.t) :
  NoDup (map Note._id l) -> In n l ->
  find (owned_by (Note.username n) (Note._id n)) l = Some n.
Proof.
  intros Hnd Hin.
  destruct (find (owned_by (Note.username n) (Note._id n)) l) as [m|] eqn:E.
  - apply find_owned_In in E. destruct E as (Hm & _ & Hi).
    f_equal. eapply same_id_same_note; eauto.
  - exfalso. eapply find_none in E; eauto.
    rewrite owned_by_self in E. discriminate.
Qed.

Lemma find_absent (u : string) (i : ObjectId) (l : list Note.t) :
  find (owned_by u i) l = None <->
  (forall n, In n l -> ~ (Note.username n = u /\ Note._id n = i)).
Proof.
  split.
  - intros H n Hin Hn. eapply find_none in H; eauto.
    apply owned_by_iff in Hn. congruence.
  - intros H. destruct (find (owned_by u i) l) as [m|] eqn:E; [|reflexivity].
    apply find_owned_In in E. destruct E as (Hm & Hu & Hi).
    exfalso. apply (H m Hm). auto.
Qed.

Lemma delete_first_none (f : Note.t -> bool) (l : list Note.t) :
  find f l = None -> delete_first f l = l.
Proof.
  induction l as [|x l IH]; simpl; [reflexivity|].
  destruct (f x); [discriminate|]. intros H. now rewrite IH.
Qed.

Lemma update_first_none (f : Note.t -> bool) (g : Note.t -> Note.t)
      (l : list Note.t) :
  find f l = None -> update_first f g l = l.
Proof.
  induction l as [|x l IH]; simpl; [reflexivity|].
  destruct (f x); [discriminate|]. intros H. now rewrite IH.
Qed.

Lemma delete_first_In (f : Note.t -> bool) (l : list Note.t) (n : Note.t) :
  In n (delete_first f l) -> In n l.
Proof.
  induction l as [|x l IH]; simpl; [tauto|].
  destruct (f x); simpl; intuition.
Qed.

Lemma delete_first_NoDup (f : Note.t -> bool) (l : list Note.t) :
  NoDup (map Note._id l) -> NoDup (map Note._id (delete_first f l)).
Proof.
  induction l as [|x l IH]; simpl; intros Hnd; [constructor|].
  inversion Hnd as [|? ? Hx Hl]; subst.
  destruct (f x); [assumption|]. simpl. constructor; auto.
  intros Hin. apply Hx. apply in_map_iff in Hin.
  destruct Hin as (m & Hm & Hin). apply delete_first_In in Hin.
  rewrite <- Hm. now apply in_map.
Qed.

(** Deleting by (owner, id) leaves no note with that id when ids are
    unique. *)
Lemma delete_first_gone (u : string) (i : ObjectId) (l : list Note.t)
      (n : Note.t) :
  NoDup (map Note._id l) -> find (owned_by u i) l = Some n ->
  forall m, In m (delete_first (owned_by u i) l) -> Note._id m <> i.
Proof.
  induction l as [|x l IH]; simpl; intros Hnd Hf m Hin; [tauto|].
  inversion Hnd as [|? ? Hx Hl]; subst.
  destruct (owned_by u i x) eqn:Ex.
  - apply owned_by_iff in Ex. destruct Ex as [_ Ex]. intros Hm.
    apply Hx. rewrite Ex, <- Hm. now apply in_map.
  - destruct Hin as [-> | Hin]; [|eauto].
    intros Hm. apply find_owned_In in Hf. destruct Hf as (Hn & _ & Hi).
    apply Hx. rewrite Hm, <- Hi. now apply in_map.
Qed.

(** Every other note survives a delete. *)
Lemma delete_first_keeps (f : Note.t -> bool) (l : list Note.t) (m : Note.t) :
  In m l -> f m = false -> In m (delete_first f l).
Proof.
  induction l as [|x l IH]; simpl; [tauto|].
  intros [-> | Hin] Hm.
  - rewrite Hm. now left.
  - destruct (f x); [assumption|]. right. auto.
Qed.

Lemma delete_first_filter (f p : Note.t -> bool) (l : list Note.t) :
  (forall n, f n = true -> p n = false) ->
  filter p (delete_first f l) = filter p l.
Proof.
  intros H. induction l as [|x l IH]; simpl; [reflexivity|].
  destruct (f x) eqn:E.
  - now rewrite (H x E).
  - simpl. now rewrite IH.
Qed.

Lemma update_first_filter (f p : Note.t -> bool) (g : Note.t -> Note.t)
      (l : list Note.t) :
  (forall n, f n = true -> p n = false) -> (forall n, p (g n) = p n) ->
  filter p (update_first f g l) = filter p l.
Proof.
  intros H Hg. induction l as [|x l IH]; simpl; [reflexivity|].
  destruct (f x) eqn:E; simpl.
  - now rewrite Hg, (H x E).
  - now rewrite IH.
Qed.

Lemma update_first_map (B : Type) (key : Note.t -> B) (f : Note.t -> bool)
      (g : Note.t -> Note.t) (l : list Note.t) :
  (forall n, key (g n) = key n) ->
  map key (update_first f g l) = map key l.
Proof.
  intros Hg. induction l as [|x l IH]; simpl; [reflexivity|].
  destruct (f x); simpl; congruence.
Qed.

Lemma find_update_first (u : string) (i : ObjectId) (t c : string)
      (l : list Note.t) (n : Note.t) :
  find (owned_by u i) l = Some n ->
  find (owned_by u i) (update_first (owned_by u i) (set_fields t c) l)
  = Some (set_fields t c n).
Proof.
  induction l as [|x l IH]; simpl; [discriminate|].
  destruct (owned_by u i x) eqn:E; simpl.
  - intros [= ->]. unfold owned_by in *. simpl. now rewrite E.
  - rewrite E. exact IH.
Qed.

(** The notes an update does not select are left as they were. *)
Lemma update_first_others (f : Note.t -> bool) (g : Note.t -> Note.t)
      (l : list Note.t) (m : Note.t) :
  In m l -> f m = false -> In m (update_first f g l).
Proof.
  induction l as [|x l IH]; simpl; [tauto|].
  intros [-> | Hin] Hm.
  - rewrite Hm. now left.
  - destruct (f x); right; auto.
Qed.

Lemma existsb_id_false (l : list Note.t) (i : ObjectId) :
  existsb (fun n => (Note._id n =? i)%N) l = false <->
  ~ In i (map Note._id l).
Proof.
  induction l as [|x l IH]; simpl; [tauto|].
  rewrite orb_false_iff, IH, N.eqb_neq. tauto.
Qed.

Lemma find_app_fresh (l : list Note.t) (n : Note.t) :
  ~ In (Note._id n) (map Note._id l) ->
  find (owned_by (Note.username n) (Note._id n)) (l ++ [n]) = Some n.
Proof.
  induction l as [|x l IH]; simpl; intros H.
  - now rewrite owned_by_self.
  - destruct (owned_by (Note.username n) (Note._id n) x) eqn:E.
    + apply owned_by_iff in E. tauto.
    + apply IH. tauto.
Qed.

Lemma find_user_app (l : list User.t) (u : User.t) :
  find (fun x => User.username x =? User.username u) l = None ->
  find (fun x => User.username x =? User.username u) (l ++ [u]) = Some u.
Proof.
  induction l as [|x l IH]; simpl.
  - now rewrite String.eqb_refl.
  - destruct (User.username x =? User.username u); [discriminate|exact IH].
Qed.

Lemma find_user_none (l : list User.t) (name : string) :
  find (fun x => User.username x =? name) l = None <->
  existsb (fun x => User.username x =? name) l = false.
Proof.
  induction l as [|x l IH]; simpl; [tauto|].
  destruct (User.username x =? name); simpl; [split; discriminate|exact IH].
Qed.

End StoreFacts.

(** ** Facts about running handlers *)

Section HandlerFacts.

Context {lib : Libraries}.

Lemma truthy_nonempty (s : string) : s <> "" -> truthy (Some s) = Some s.
Proof.
  intros H. unfold truthy. apply String.eqb_neq in H. now rewrite H.
Qed.

Lemma truthy_falsy (v : JsString) :
  falsy v = match truthy v with Some _ => false | None => true end.
Proof.
  destruct v as [s|]; simpl; [|reflexivity]. now destruct (s =? "").
Qed.

Lemma truthy_inv (v : JsString) (s : string) :
  truthy v = Some s -> v = Some s /\ s <> "".
Proof.
  destruct v as [x|]; simpl; [|discriminate].
  destruct (x =? "") eqn:E; [discriminate|].
  intros [= ->]. now apply String.eqb_neq in E.
Qed.

Lemma with_token_valid (env : Env) (req : Request) (u : string)
      (callback : string -> Async Outcome) :
  identity env req = Some u -> with_token env req callback = callback u.
Proof.
  unfold identity, with_token.
  destruct (headers_authorization req); [|discriminate].
  now intros ->.
Qed.

Lemma with_token_invalid (env : Env) (req : Request) (a : string)
      (callback : string -> Async Outcome) :
  headers_authorization req = Some a -> identity env req = None ->
  with_token env req callback
  = Return (Sent (mkResponse 401 (text "Unauthorized."))).
Proof.
  unfold identity, with_token. intros ->. now intros ->.
Qed.

Lemma with_token_missing (env : Env) (req : Request)
      (callback : string -> Async Outcome) :
  headers_authorization req = None ->
  with_token env req callback
  = Return (Sent (mkResponse 500 (error_message TypeError))).
Proof. unfold with_token. now intros ->. Qed.

Lemma set_notes_same (db : Db) : set_notes db (notes db) = db.
Proof. now destruct db. Qed.

End HandlerFacts.

(** ** Validation and authentication *)

Section Validation.

Context {lib : Libraries}.

(** C10.  For get, delete and update, a note id that [ObjectId.isValid]
    rejects is answered with status 400 "Invalid note ID." whatever the
    Authorization header is (missing, invalid or valid): the id check runs
    first, and no store operation is performed. *)
Theorem invalid_id_precedes_authentication :
  forall (env : Env) (req : Request) (db : Db),
    ObjectId_isValid (params_noteId req) = false ->
    run (getNote env req) db
    = (Sent (mkResponse 400 (error "Invalid note ID.")), db, [])
    /\ run (deleteNote env req) db
       = (Sent (mkResponse 400 (error "Invalid note ID.")), db, [])
    /\ run (editNote env req) db
       = (Sent (mkResponse 400 (error "Invalid note ID.")), db, []).
Proof.
  intros env req db H.
  unfold getNote, deleteNote, editNote. rewrite H. simpl. auto.
Qed.

(** C2, as the handlers have it.  When the Authorization header is present
    and its token does not verify (absent after the scheme, malformed,
    tampered with or expired), the request is answered 401 "Unauthorized."
    and no store operation is performed, provided it passes the check the
    route runs before reading the token: a non-empty title and content for
    create, a note id that [ObjectId.isValid] accepts for get, delete and
    update; list has no such check. *)
Theorem invalid_token_unauthorized :
  forall (env : Env) (req : Request) (db : Db) (authorization : string),
    headers_authorization req = Some authorization ->
    identity env req = None ->
    (falsy (Body.title (body req)) = false ->
     falsy (Body.content (body req)) = false ->
     run (postNote env req) db = (unauthorized, db, []))
    /\ run (getAllNotes env req) db = (unauthorized, db, [])
    /\ (ObjectId_isValid (params_noteId req) = true ->
        run (getNote env req) db = (unauthorized, db, [])
        /\ run (deleteNote env req) db = (unauthorized, db, [])
        /\ run (editNote env req) db = (unauthorized, db, [])).
Proof.
  intros env req db a Ha Hid. repeat split.
  - intros Ht Hc. unfold postNote.
    rewrite truthy_falsy in Ht, Hc.
    destruct (truthy (Body.title (body req))); [|discriminate].
    destruct (truthy (Body.content (body req))); [|discriminate].
    now rewrite (with_token_invalid _ _ _ _ Ha Hid).
  - unfold getAllNotes. now rewrite (with_token_invalid _ _ _ _ Ha Hid).
  - unfold getNote. rewrite H. simpl.
    now rewrite (with_token_invalid _ _ _ _ Ha Hid).
  - unfold deleteNote. rewrite H. simpl.
    now rewrite (with_token_invalid _ _ _ _ Ha Hid).
  - unfold editNote. rewrite H. simpl.
    now rewrite (with_token_invalid _ _ _ _ Ha Hid).
Qed.

(** A request with no Authorization header at all makes [split] throw
    inside the handler's [try]; the catch answers 500. *)
Lemma missing_header_500 :
  forall (env : Env) (req : Request) (db : Db),
    headers_authorization req = None ->
    run (getAllNotes env req) db
    = (Sent (mkResponse 500 (error_message TypeError)), db, []).
Proof.
  intros env req db H. unfold getAllNotes.
  now rewrite (with_token_missing _ _ _ H).
Qed.

(** C4.  With a non-empty username and password, a login for a username
    the store does not hold and a login for a registered username whose
    stored hash the password does not match get the same response, status
    401 with the message "Authentication failed."; neither changes the
    store. *)
Theorem login_failures_indistinguishable :
  forall (env env' : Env) (req req' : Request) (db db' : Db)
         (username password username' password' : string) (user : User.t),
    Body.username (body req) = Some username ->
    Body.password (body req) = Some password ->
    Body.username (body req') = Some username' ->
    Body.password (body req') = Some password' ->
    username <> "" -> password <> "" ->
    username' <> "" -> password' <> "" ->
    find (fun u => User.username u =? username) (users db) = None ->
    find (fun u => User.username u =? username') (users db') = Some user ->
    bcrypt_compare password' (User.password user) = false ->
    fst (fst (run (loginUser env req) db))
    = Sent (mkResponse 401 (error "Authentication failed."))
    /\ fst (fst (run (loginUser env' req') db'))
       = fst (fst (run (loginUser env req) db))
    /\ snd (fst (run (loginUser env req) db)) = db
    /\ snd (fst (run (loginUser env' req') db')) = db'.
Proof.
  intros env env' req req' db db' u p u' p' user Hu Hp Hu' Hp'
         Nu Np Nu' Np' Hnone Hsome Hcmp.
  unfold loginUser. rewrite Hu, Hp, Hu', Hp'.
  rewrite !truthy_nonempty by assumption.
  simpl. rewrite Hnone, Hsome. simpl. rewrite Hcmp. simpl. auto.
Qed.

End Validation.

(** ** Ownership *)

Section Ownership.

Context {lib : Libraries}.

(** Case analysis on whatever the goal is still matching on. *)
Ltac cases :=
  repeat (simpl in *;
          match goal with
          | |- context [match ?x with _ => _ end] =>
              lazymatch x with
              | context [match _ with _ => _ end] => fail
              | _ => destruct x eqn:?
              end
          end).

(** A store operation that names another user leaves a user's notes as
    they were. *)
Lemma exec_frame (op : StoreOp) (db : Db) (A : string) :
  op_owner op <> Some A ->
  notes_of A (snd (exec op db)) = notes_of A db.
Proof.
  unfold notes_of. destruct op; simpl; intros H; try reflexivity.
  - destruct (_ || _); reflexivity.
  - destruct (existsb _ _); simpl; [reflexivity|].
    rewrite filter_app. simpl.
    destruct (Note.username doc =? A) eqn:E.
    + apply String.eqb_eq in E. congruence.
    + apply app_nil_r.
  - apply delete_first_filter. intros n Hn.
    apply owned_by_iff in Hn. destruct Hn as [Hn _].
    apply String.eqb_neq. congruence.
  - apply update_first_filter.
    + intros n Hn. apply owned_by_iff in Hn. destruct Hn as [Hn _].
      apply String.eqb_neq. congruence.
    + reflexivity.
Qed.

Lemma run_frame (p : Async Outcome) (A : string) :
  forall db,
    Forall (fun op => op_owner op <> Some A) (snd (run p db)) ->
    notes_of A (snd (fst (run p db))) = notes_of A db.
Proof.
  induction p as [a | op k IH]; intros db; simpl; [reflexivity|].
  destruct (exec op db) as [r db1] eqn:E.
  specialize (IH r db1).
  destruct (run (k r) db1) as [[a db2] log]. simpl in *.
  intros HF. inversion HF; subst.
  rewrite IH by assumption.
  change db1 with (snd (r, db1)). rewrite <- E. now apply exec_frame.
Qed.

(** Every note operation a handler performs names the identity its token
    decodes to. *)
Lemma operations_name_the_caller (r : Route) (env : Env) (req : Request)
      (db : Db) (op : StoreOp) :
  In op (snd (run (app r env req) db)) ->
  on_notes op = true ->
  op_owner op = identity env req.
Proof.
  destruct r; simpl;
    unfold registerUser, loginUser, postNote, getNote, getAllNotes,
           deleteNote, editNote, with_token, identity;
    cases; intros Hin Hon;
    repeat (destruct Hin as [<- | Hin]; try discriminate; simpl; auto);
    try contradiction.
Qed.

(** A handler's run leaves alone the notes of everyone but the caller. *)
Lemma foreign_notes_untouched (r : Route) (env : Env) (req : Request)
      (db : Db) (A : string) :
  identity env req <> Some A ->
  notes_of A (snd (fst (run (app r env req) db))) = notes_of A db.
Proof.
  intros H. apply run_frame. apply Forall_forall. intros op Hin Hop.
  assert (on_notes op = true) by (destruct op; simpl in *; congruence).
  rewrite (operations_name_the_caller _ _ _ _ _ Hin) in Hop by assumption.
  contradiction.
Qed.

(** The notes a response carries belong to the caller. *)
Lemma returned_notes_owned (r : Route) (env : Env) (req : Request)
      (db : Db) (m : Note.t) :
  In m (returned_notes (fst (fst (run (app r env req) db)))) ->
  identity env req = Some (Note.username m).
Proof.
  destruct r; simpl;
    unfold registerUser, loginUser, postNote, getNote, getAllNotes,
           deleteNote, editNote, with_token, identity, not_found,
           invalid_id;
    cases; try contradiction.
  - intros [<- | []].
    match goal with H : find _ _ = Some _ |- _ =>
      apply find_owned_In in H; destruct H as (_ & -> & _) end.
    reflexivity.
  - intros Hin. apply filter_In in Hin. destruct Hin as [_ Hin].
    apply String.eqb_eq in Hin. now subst.
Qed.

End Ownership.

(** ** The note routes *)

Section Notes.

Context {lib : Libraries}.

Lemma getNote_run (env : Env) (req : Request) (db : Db) (u : string)
      (i : ObjectId) :
  identity env req = Some u ->
  ObjectId_isValid (params_noteId req) = true ->
  ObjectId_new (params_noteId req) = Some i ->
  run (getNote env req) db
  = (match find (owned_by u i) (notes db) with
     | Some data => Sent (mkResponse 200 (response_note data))
     | None => not_found
     end, db, [notes_findOne u i]).
Proof.
  intros Hid Hv Hn. unfold getNote. rewrite Hv. simpl.
  rewrite (with_token_valid _ _ _ _ Hid), Hn. simpl.
  now destruct (find _ _).
Qed.

Lemma deleteNote_run (env : Env) (req : Request) (db : Db) (u : string)
      (i : ObjectId) :
  identity env req = Some u ->
  ObjectId_isValid (params_noteId req) = true ->
  ObjectId_new (params_noteId req) = Some i ->
  run (deleteNote env req) db
  = (match find (owned_by u i) (notes db) with
     | Some _ => deleted (params_noteId req)
     | None => not_found
     end,
     set_notes db (delete_first (owned_by u i) (notes db)),
     [notes_findOneAndDelete u i]).
Proof.
  intros Hid Hv Hn. unfold deleteNote. rewrite Hv. simpl.
  rewrite (with_token_valid _ _ _ _ Hid), Hn. simpl.
  now destruct (find _ _).
Qed.

Lemma editNote_run (env : Env) (req : Request) (db : Db) (u : string)
      (i : ObjectId) :
  identity env req = Some u ->
  ObjectId_isValid (params_noteId req) = true ->
  ObjectId_new (params_noteId req) = Some i ->
  run (editNote env req) db
  = if falsy (Body.title (body req)) && falsy (Body.content (body req))
    then (nothing_to_update, db, [])
    else match find (owned_by u i) (notes db) with
         | None => (not_found, db, [notes_findOne u i])
         | Some originalNote =>
             let title := js_or (Body.title (body req))
                                (Note.title originalNote) in
             let content := js_or (Body.content (body req))
                                  (Note.content originalNote) in
             (updated (params_noteId req),
              set_notes db (update_first (owned_by u i)
                                         (set_fields title content)
                                         (notes db)),
              [notes_findOne u i;
               notes_findOneAndUpdate u i title content])
         end.
Proof.
  intros Hid Hv Hn. unfold editNote. rewrite Hv. simpl.
  rewrite (with_token_valid _ _ _ _ Hid), Hn.
  destruct (falsy _ && falsy _); [reflexivity|]. simpl.
  now destruct (find _ _).
Qed.

(** The identifiers and owners of the notes survive any edit request. *)
Lemma editNote_keys (env : Env) (req : Request) (db : Db) :
  keys (snd (fst (run (editNote env req) db))) = keys db.
Proof.
  unfold editNote, with_token, keys.
  repeat (simpl;
          match goal with
          | |- context [match ?x with _ => _ end] =>
              lazymatch x with
              | context [match _ with _ => _ end] => fail
              | _ => destruct x eqn:?
              end
          end); simpl; try reflexivity.
  now apply update_first_map.
Qed.

(** C1, as the handlers have it.  Let a note be owned by A and let a
    request carry a valid token of another user B.  Whatever route the
    request takes, the notes in its response all belong to B and the notes
    of A are left exactly as they were; list returns B's notes only.
    Addressed by its id, the note is reported NotFound (404) by get and by
    delete, and by update when the request supplies a non-empty title or
    content; an update that supplies neither is answered 400 before the
    note is looked up. *)
Theorem ownership_isolation :
  forall (db : Db) (n : Note.t) (A B : string) (env : Env) (req : Request),
    unique_ids db ->
    In n (notes db) -> Note.username n = A -> A <> B ->
    identity env req = Some B ->
    (forall r : Route,
        (forall m, In m (returned_notes (fst (fst (run (app r env req) db))))
                   -> Note.username m = B)
        /\ notes_of A (snd (fst (run (app r env req) db))) = notes_of A db)
    /\ fst (fst (run (getAllNotes env req) db))
       = Sent (mkResponse 200 (response_notes (notes_of B db)))
    /\ ~ In n (notes_of B db)
    /\ (ObjectId_isValid (params_noteId req) = true ->
        ObjectId_new (params_noteId req) = Some (Note._id n) ->
        fst (fst (run (getNote env req) db)) = not_found
        /\ fst (fst (run (deleteNote env req) db)) = not_found
        /\ fst (fst (run (editNote env req) db))
           = if falsy (Body.title (body req))
                && falsy (Body.content (body req))
             then nothing_to_update
             else not_found).
Proof.
  intros db n A B env req Huniq Hin HA HAB Hid.
  assert (Hforeign : find (owned_by B (Note._id n)) (notes db) = None).
  { apply find_foreign; auto. congruence. }
  split; [|split; [|split]].
  - intros r. split.
    + intros m Hm. apply returned_notes_owned in Hm.
      rewrite Hid in Hm. congruence.
    + apply foreign_notes_untouched. rewrite Hid. congruence.
  - unfold getAllNotes. now rewrite (with_token_valid _ _ _ _ Hid).
  - unfold notes_of. rewrite filter_In, String.eqb_eq. intros [_ H].
    congruence.
  - intros Hv Hn. repeat split.
    + rewrite (getNote_run _ _ _ _ _ Hid Hv Hn). now rewrite Hforeign.
    + rewrite (deleteNote_run _ _ _ _ _ Hid Hv Hn). now rewrite Hforeign.
    + rewrite (editNote_run _ _ _ _ _ Hid Hv Hn). rewrite Hforeign.
      now destruct (falsy _ && falsy _).
Qed.

(** C5.  With a valid token and a well-formed note id: when the caller
    owns no note with that id, delete answers 404 and the store is
    unchanged; when the caller owns such a note, delete answers 200, that
    note is gone while every other note stays, and afterwards a get of the
    same id answers 404. *)
Theorem delete_behaviour :
  forall (db : Db) (env : Env) (req : Request) (u : string) (i : ObjectId),
    identity env req = Some u ->
    ObjectId_isValid (params_noteId req) = true ->
    ObjectId_new (params_noteId req) = Some i ->
    ((forall n, In n (notes db)
                -> ~ (Note.username n = u /\ Note._id n = i)) ->
     run (deleteNote env req) db
     = (not_found, db, [notes_findOneAndDelete u i]))
    /\ (forall n,
           unique_ids db ->
           In n (notes db) -> Note.username n = u -> Note._id n = i ->
           let db' := snd (fst (run (deleteNote env req) db)) in
           fst (fst (run (deleteNote env req) db))
           = deleted (params_noteId req)
           /\ ~ In n (notes db')
           /\ (forall m, In m (notes db) -> m <> n -> In m (notes db'))
           /\ (forall env' req' v,
                  identity env' req' = Some v ->
                  params_noteId req' = params_noteId req ->
                  run (getNote env' req') db'
                  = (not_found, db', [notes_findOne v i]))).
Proof.
  intros db env req u i Hid Hv Hn. split.
  - intros Habs. apply find_absent in Habs.
    rewrite (deleteNote_run _ _ _ _ _ Hid Hv Hn), Habs.
    rewrite delete_first_none by assumption. now rewrite set_notes_same.
  - intros n Huniq Hin Hu Hi db'. subst db'.
    rewrite (deleteNote_run _ _ _ _ _ Hid Hv Hn).
    assert (Hf : find (owned_by u i) (notes db) = Some n).
    { subst u i. now apply find_own. }
    rewrite Hf. simpl.
    pose proof (delete_first_gone _ _ _ _ Huniq Hf) as Hgone.
    repeat split.
    + intros Hn'. now apply (Hgone n Hn').
    + intros m Hm Hmn. apply delete_first_keeps; [assumption|].
      destruct (owned_by u i m) eqn:E; [|reflexivity].
      apply owned_by_iff in E. destruct E as [_ E].
      exfalso. apply Hmn. eapply same_id_same_note; eauto. congruence.
    + intros env' req' v Hid' Hreq.
      rewrite <- Hreq in Hv, Hn.
      rewrite (getNote_run _ _ _ _ _ Hid' Hv Hn). simpl.
      destruct (find (owned_by v i) _) as [m|] eqn:E; [|reflexivity].
      apply find_owned_In in E. destruct E as (Hm & _ & Hmi).
      exfalso. now apply (Hgone m Hm).
Qed.

End Notes.

(** ** Note contents: update and create *)

Section NoteContents.

Context {lib : Libraries}.

(** An update by the owner: the stored note takes the supplied fields and
    keeps the others. *)
Lemma editNote_owned (db : Db) (env : Env) (req : Request) (n : Note.t) :
  unique_ids db -> In n (notes db) ->
  identity env req = Some (Note.username n) ->
  ObjectId_isValid (params_noteId req) = true ->
  ObjectId_new (params_noteId req) = Some (Note._id n) ->
  falsy (Body.title (body req)) && falsy (Body.content (body req)) = false ->
  let db' := snd (fst (run (editNote env req) db)) in
  fst (fst (run (editNote env req) db)) = updated (params_noteId req)
  /\ find (owned_by (Note.username n) (Note._id n)) (notes db')
     = Some (Note.mk (Note._id n)
                     (js_or (Body.title (body req)) (Note.title n))
                     (js_or (Body.content (body req)) (Note.content n))
                     (Note.username n))
  /\ (forall m, In m (notes db) -> m <> n -> In m (notes db')).
Proof.
  intros Huniq Hin Hid Hv Hn Hbody db'. subst db'.
  rewrite (editNote_run _ _ _ _ _ Hid Hv Hn), Hbody.
  rewrite (find_own _ _ Huniq Hin). simpl. repeat split.
  - erewrite find_update_first by (apply find_own; eassumption).
    reflexivity.
  - intros m Hm Hmn. apply update_first_others; [assumption|].
    destruct (owned_by _ _ m) eqn:E; [|reflexivity].
    apply owned_by_iff in E. destruct E as [_ E].
    exfalso. apply Hmn. eapply same_id_same_note; eauto.
Qed.

Lemma js_or_truthy (s d : string) : s <> "" -> js_or (Some s) d = s.
Proof. intros H. unfold js_or. now rewrite truthy_nonempty. Qed.

Lemma js_or_falsy (v : JsString) (d : string) :
  falsy v = true -> js_or v d = d.
Proof.
  unfold js_or. rewrite truthy_falsy.
  now destruct (truthy v).
Qed.

(** C6.  For a note of the caller, addressed by its id with a valid
    token: an update with a new title and no content (absent or empty)
    sets the title and keeps the content, and symmetrically for a new
    content with no title; an update with neither answers 400, performs no
    store operation and leaves the store as it was.  Every other note is
    left as it was, and no edit request, whoever sends it, changes the id
    or the owner of any note. *)
Theorem update_frame :
  forall (db : Db) (env : Env) (req : Request) (n : Note.t),
    unique_ids db -> In n (notes db) ->
    identity env req = Some (Note.username n) ->
    ObjectId_isValid (params_noteId req) = true ->
    ObjectId_new (params_noteId req) = Some (Note._id n) ->
    let db' := snd (fst (run (editNote env req) db)) in
    let stored := find (owned_by (Note.username n) (Note._id n))
                       (notes db') in
    (forall T, Body.title (body req) = Some T -> T <> "" ->
               falsy (Body.content (body req)) = true ->
               fst (fst (run (editNote env req) db))
               = updated (params_noteId req)
               /\ stored = Some (Note.mk (Note._id n) T (Note.content n)
                                         (Note.username n))
               /\ (forall m, In m (notes db) -> m <> n -> In m (notes db')))
    /\ (forall C, Body.content (body req) = Some C -> C <> "" ->
                  falsy (Body.title (body req)) = true ->
                  fst (fst (run (editNote env req) db))
                  = updated (params_noteId req)
                  /\ stored = Some (Note.mk (Note._id n) (Note.title n) C
                                            (Note.username n))
                  /\ (forall m, In m (notes db) -> m <> n
                                -> In m (notes db')))
    /\ (falsy (Body.title (body req)) = true ->
        falsy (Body.content (body req)) = true ->
        run (editNote env req) db = (nothing_to_update, db, []))
    /\ (forall env0 req0 db0,
           keys (snd (fst (run (editNote env0 req0) db0))) = keys db0).
Proof.
  intros db env req n Huniq Hin Hid Hv Hn db' stored.
  split; [|split; [|split]].
  - intros T HT HTne HC.
    assert (Hbody : falsy (Body.title (body req))
                    && falsy (Body.content (body req)) = false).
    { rewrite HT. simpl. apply String.eqb_neq in HTne. now rewrite HTne. }
    destruct (editNote_owned _ _ _ _ Huniq Hin Hid Hv Hn Hbody) as (H1 & H2 & H3).
    rewrite HT, js_or_truthy, (js_or_falsy _ _ HC) in H2 by assumption.
    auto.
  - intros C HC HCne HT.
    assert (Hbody : falsy (Body.title (body req))
                    && falsy (Body.content (body req)) = false).
    { rewrite HC, HT. simpl. now apply String.eqb_neq. }
    destruct (editNote_owned _ _ _ _ Huniq Hin Hid Hv Hn Hbody) as (H1 & H2 & H3).
    rewrite HC, js_or_truthy, (js_or_falsy _ _ HT) in H2 by assumption.
    auto.
  - intros HT HC. rewrite (editNote_run _ _ _ _ _ Hid Hv Hn), HT, HC.
    reflexivity.
  - intros. apply editNote_keys.
Qed.

(** C9.  With a valid token for u and a non-empty title and content,
    create answers 200 with the id of the inserted note (the driver having
    generated an id no note uses), and a get of that id, written as
    [toHexString] serialises it and sent with a valid token for u, answers
    200 with exactly that id, the submitted title and content, and owner
    u. *)
Theorem create_get_roundtrip :
  forall (db : Db) (env : Env) (req : Request) (u title content : string),
    (forall i, ObjectId_isValid (ObjectId_toHexString i) = true
               /\ ObjectId_new (ObjectId_toHexString i) = Some i) ->
    identity env req = Some u ->
    Body.title (body req) = Some title -> title <> "" ->
    Body.content (body req) = Some content -> content <> "" ->
    ~ In (fresh_id env) (map Note._id (notes db)) ->
    let created := Note.mk (fresh_id env) title content u in
    let db' := set_notes db (notes db ++ [created]) in
    run (postNote env req) db
    = (Sent (mkResponse 200
         (response_insertedId "Note added succesfully." (fresh_id env))),
       db', [notes_insertOne created])
    /\ (forall env' req',
           identity env' req' = Some u ->
           params_noteId req' = ObjectId_toHexString (fresh_id env) ->
           run (getNote env' req') db'
           = (Sent (mkResponse 200 (response_note created)), db',
              [notes_findOne u (fresh_id env)])).
Proof.
  intros db env req u title content Hhex Hid Ht Htne Hc Hcne Hfresh
         created db'.
  split.
  - unfold postNote. rewrite Ht, Hc, !truthy_nonempty by assumption.
    rewrite (with_token_valid _ _ _ _ Hid). simpl.
    apply existsb_id_false in Hfresh. now rewrite Hfresh.
  - intros env' req' Hid' Hparam.
    destruct (Hhex (fresh_id env)) as [Hv Hn]. rewrite <- Hparam in Hv, Hn.
    rewrite (getNote_run _ _ _ _ _ Hid' Hv Hn).
    pose proof (find_app_fresh (notes db) created Hfresh) as Hfound.
    simpl in *. now rewrite Hfound.
Qed.

End NoteContents.

(** ** Store invariants *)

Section Invariants.

Context {lib : Libraries}.

(** No store operation breaks the uniqueness of note ids. *)
Lemma exec_unique_ids (op : StoreOp) (db : Db) :
  unique_ids db -> unique_ids (snd (exec op db)).
Proof.
  unfold unique_ids. destruct op; simpl; intros H; try assumption.
  - destruct (_ || _); assumption.
  - destruct (existsb _ _) eqn:E; simpl; [assumption|].
    apply existsb_id_false in E. rewrite map_app. simpl.
    apply NoDup_app; [assumption | repeat constructor; simpl; tauto |].
    intros x Hx [<- | []]. contradiction.
  - now apply delete_first_NoDup.
  - now rewrite update_first_map.
Qed.

Lemma run_unique_ids (A : Type) (p : Async A) :
  forall db, unique_ids db -> unique_ids (snd (fst (run p db))).
Proof.
  induction p as [a | op k IH]; intros db H; simpl; [assumption|].
  destruct (exec op db) as [r db1] eqn:E.
  specialize (IH r db1).
  destruct (run (k r) db1) as [[a db2] log]. simpl in *.
  apply IH. change db1 with (snd (r, db1)). rewrite <- E.
  now apply exec_unique_ids.
Qed.

Lemma serve_unique_ids (reqs : list (Route * Env * Request)) :
  forall db, unique_ids db -> unique_ids (serve reqs db).
Proof.
  induction reqs as [|[[r env] req] rest IH]; intros db H; simpl;
    [assumption|].
  apply IH. now apply run_unique_ids.
Qed.

(** A request leaves the users collection alone, or it is a registration
    that appends one user whose name was not there. *)
Lemma run_users (r : Route) (env : Env) (req : Request) (db : Db) :
  users (snd (fst (run (app r env req) db))) = users db
  \/ exists doc,
      users (snd (fst (run (app r env req) db))) = (users db ++ [doc])%list
      /\ find (fun u => User.username u =? User.username doc) (users db)
         = None.
Proof.
  destruct r; simpl;
    unfold registerUser, loginUser, postNote, getNote, getAllNotes,
           deleteNote, editNote, with_token;
    repeat (simpl;
            match goal with
            | |- context [match ?x with _ => _ end] =>
                lazymatch x with
                | context [match _ with _ => _ end] => fail
                | _ => destruct x eqn:?
                end
            end); simpl; auto.
  right. eexists. split; [reflexivity|]. simpl. assumption.
Qed.

Lemma find_app_some (f : User.t -> bool) (l l' : list User.t) (u : User.t) :
  find f l = Some u -> find f (l ++ l') = Some u.
Proof.
  induction l as [|x l IH]; simpl; [discriminate|].
  destruct (f x); auto.
Qed.

(** A registered username stays registered, under the same record, and
    gains no second record, whatever requests are served afterwards. *)
Lemma run_registered (r : Route) (env : Env) (req : Request) (db : Db)
      (name : string) (u : User.t) :
  find (fun x => User.username x =? name) (users db) = Some u ->
  find (fun x => User.username x =? name)
       (users (snd (fst (run (app r env req) db)))) = Some u
  /\ users_named name (snd (fst (run (app r env req) db)))
     = users_named name db.
Proof.
  intros Hf. unfold users_named.
  destruct (run_users r env req db) as [H | (doc & H & Hnone)]; rewrite H.
  - auto.
  - split; [now apply find_app_some|].
    rewrite filter_app. simpl.
    destruct (User.username doc =? name) eqn:E; [|apply app_nil_r].
    apply String.eqb_eq in E. subst name. congruence.
Qed.

Lemma serve_registered (reqs : list (Route * Env * Request)) :
  forall (db : Db) (name : string) (u : User.t),
    find (fun x => User.username x =? name) (users db) = Some u ->
    find (fun x => User.username x =? name) (users (serve reqs db)) = Some u
    /\ users_named name (serve reqs db) = users_named name db.
Proof.
  induction reqs as [|[[r env] req] rest IH]; intros db name u H; simpl;
    [auto|].
  destruct (run_registered r env req db name u H) as [H1 H2].
  destruct (IH _ name u H1) as [H3 H4]. split; [assumption|congruence].
Qed.

(** Uniqueness of note ids also survives any interleaving of two
    requests. *)
Lemma interleave_unique_ids (A B : Type) (schedule : list bool) :
  forall (p : Async A) (q : Async B) (db : Db),
    unique_ids db -> unique_ids (snd (interleave schedule p q db)).
Proof.
  induction schedule as [|turn rest IH]; intros p q db H; simpl;
    [assumption|].
  destruct turn.
  - destruct p as [a | op k]; simpl; [now apply IH|].
    destruct (exec op db) as [r db1] eqn:E. apply IH.
    change db1 with (snd (r, db1)). rewrite <- E. now apply exec_unique_ids.
  - destruct q as [b | op k]; simpl; [now apply IH|].
    destruct (exec op db) as [r db1] eqn:E. apply IH.
    change db1 with (snd (r, db1)). rewrite <- E. now apply exec_unique_ids.
Qed.

(** Serving a request alone is the schedule that gives it every turn. *)
Lemma run_is_a_schedule (A B : Type) (p : Async A) :
  forall (q : Async B) (db : Db),
    interleave (repeat true (length (snd (run p db)))) p q db
    = (Return (fst (fst (run p db))), q, snd (fst (run p db))).
Proof.
  induction p as [a | op k IH]; intros q db; simpl; [reflexivity|].
  destruct (exec op db) as [r db1] eqn:E.
  specialize (IH r q db1).
  destruct (run (k r) db1) as [[a db2] log]. simpl in *.
  rewrite E. exact IH.
Qed.

End Invariants.

(** ** Accounts: registration and login *)

Section Accounts.

Context {lib : Libraries}.

Lemma existsb_user_id_false (l : list User.t) (i : ObjectId) :
  ~ In i (map User._id l) ->
  existsb (fun u => (User._id u =? i)%N) l = false.
Proof.
  induction l as [|x l IH]; simpl; [reflexivity|].
  intros H. rewrite orb_false_iff, N.eqb_neq. tauto.
Qed.

Lemma filter_user_none (l : list User.t) (name : string) :
  find (fun x => User.username x =? name) l = None ->
  filter (fun x => User.username x =? name) l = [].
Proof.
  induction l as [|x l IH]; simpl; [reflexivity|].
  destruct (User.username x =? name); [discriminate|exact IH].
Qed.

(** Registration of a new username. *)
Lemma registerUser_new (env : Env) (req : Request) (db : Db)
      (username password : string) :
  Body.username (body req) = Some username -> username <> "" ->
  Body.password (body req) = Some password -> password <> "" ->
  find (fun u => User.username u =? username) (users db) = None ->
  ~ In (fresh_id env) (map User._id (users db)) ->
  let doc := User.mk (fresh_id env) username
                     (bcrypt_hash password saltRounds (salt env)) in
  run (registerUser env req) db
  = (Sent (mkResponse 201
       (response_token "User registered successfully."
          (jwt_sign username secret_key expiresIn (now env)))),
     set_users db (users db ++ [doc]),
     [users_findOne username; users_insertOne doc]).
Proof.
  intros Hu Hune Hp Hpne Hnone Hfresh doc. subst doc.
  unfold registerUser. rewrite Hu, Hp, !truthy_nonempty by assumption.
  simpl. rewrite Hnone. simpl.
  rewrite (existsb_user_id_false _ _ Hfresh).
  apply find_user_none in Hnone. rewrite Hnone, andb_false_r. reflexivity.
Qed.

(** What a 201 from registration tells about the store. *)
Lemma registerUser_created (env : Env) (req : Request) (db : Db) :
  status_of (fst (fst (run (registerUser env req) db))) = Some 201 ->
  exists doc,
    truthy (Body.username (body req)) = Some (User.username doc)
    /\ find (fun u => User.username u =? User.username doc) (users db) = None
    /\ users (snd (fst (run (registerUser env req) db)))
       = (users db ++ [doc])%list.
Proof.
  unfold registerUser.
  repeat (simpl;
          match goal with
          | |- context [match ?x with _ => _ end] =>
              lazymatch x with
              | context [match _ with _ => _ end] => fail
              | _ => destruct x eqn:?
              end
          end); simpl; try discriminate.
  intros _. eexists. simpl. repeat split; eauto.
Qed.

(** C3.  For a non-empty username and password, the username not yet in
    the store (and the driver's new id unused): register answers 201 with
    a token; a login with the same credentials, right away or after any
    further requests have been served, answers 200 with a token; and each
    token, verified before its expiry, decodes to that username.  The
    libraries are assumed to meet their contracts: [bcrypt.compare]
    accepts a password against its own hash, and [jwt.verify] returns the
    signed username while the token has not expired. *)
Theorem register_login_roundtrip :
  forall (db : Db) (env env' : Env) (req req' : Request)
         (later : list (Route * Env * Request))
         (username password : string),
    (forall data rounds salt,
        bcrypt_compare data (bcrypt_hash data rounds salt) = true) ->
    (forall name key expires issued clock,
        clock < issued + expires ->
        jwt_verify (jwt_sign name key expires issued) key clock = Some name) ->
    Body.username (body req) = Some username ->
    Body.password (body req) = Some password ->
    Body.username (body req') = Some username ->
    Body.password (body req') = Some password ->
    username <> "" -> password <> "" ->
    find (fun u => User.username u =? username) (users db) = None ->
    ~ In (fresh_id env) (map User._id (users db)) ->
    let token := jwt_sign username secret_key expiresIn (now env) in
    let token' := jwt_sign username secret_key expiresIn (now env') in
    let db1 := snd (fst (run (registerUser env req) db)) in
    let db2 := serve later db1 in
    fst (fst (run (registerUser env req) db))
    = Sent (mkResponse 201
              (response_token "User registered successfully." token))
    /\ run (loginUser env' req') db2
       = (Sent (mkResponse 200
                  (response_token "User logged in succesfully." token')),
          db2, [users_findOne username])
    /\ (forall clock, clock < now env + expiresIn ->
                      jwt_verify token secret_key clock = Some username)
    /\ (forall clock, clock < now env' + expiresIn ->
                      jwt_verify token' secret_key clock = Some username).
Proof.
  intros db env env' req req' later username password Hbcrypt Hjwt
         Hu Hp Hu' Hp' Hune Hpne Hnone Hfresh token token' db1 db2.
  subst db2 db1 token token'.
  rewrite (registerUser_new env req db username password) by assumption.
  simpl. repeat split; auto.
  set (doc := User.mk (fresh_id env) username
                      (bcrypt_hash password saltRounds (salt env))).
  assert (Hfound : find (fun u => User.username u =? username)
                        (users (set_users db (users db ++ [doc])))
                   = Some doc).
  { simpl. apply (find_user_app (users db) doc). exact Hnone. }
  destruct (serve_registered later _ _ _ Hfound) as [Hlater _].
  generalize dependent (serve later (set_users db (users db ++ [doc]))).
  intros db2 Hlater.
  unfold loginUser. rewrite Hu', Hp', !truthy_nonempty by assumption.
  simpl. rewrite Hlater. simpl. now rewrite Hbcrypt.
Qed.

(** C7.  Once a registration for a username has been answered 201, a
    later registration for the same username with a non-empty password,
    right after or with any requests served in between, is answered 400
    "Username already exists.", leaves the store unchanged, and the store
    holds exactly one user record for that username. *)
Theorem duplicate_registration :
  forall (db : Db) (env env' : Env) (req req' : Request)
         (later : list (Route * Env * Request))
         (username password' : string),
    Body.username (body req) = Some username ->
    status_of (fst (fst (run (registerUser env req) db))) = Some 201 ->
    Body.username (body req') = Some username ->
    Body.password (body req') = Some password' -> password' <> "" ->
    let db1 := snd (fst (run (registerUser env req) db)) in
    let db2 := serve later db1 in
    run (registerUser env' req') db2
    = (Sent (mkResponse 400 (error "Username already exists.")),
       db2, [users_findOne username])
    /\ length (users_named username db2) = 1.
Proof.
  intros db env env' req req' later username password'
         Hu Hcreated Hu' Hp' Hpne db1 db2. subst db2 db1.
  destruct (registerUser_created env req db Hcreated)
    as (doc & Htruthy & Hnone & Husers).
  apply truthy_inv in Htruthy. destruct Htruthy as [Heq Hune].
  rewrite Hu in Heq. injection Heq as Heq. rewrite <- Heq in *.
  assert (Hfound : find (fun u => User.username u =? username)
                        (users (snd (fst (run (registerUser env req) db))))
                   = Some doc).
  { rewrite Husers, Heq. apply find_user_app. now rewrite <- Heq. }
  destruct (serve_registered later _ _ _ Hfound) as [Hlater Hnamed].
  split.
  - generalize dependent (serve later (snd (fst (run (registerUser env req) db)))).
    intros db2 Hlater _.
    unfold registerUser. rewrite Hu', Hp', !truthy_nonempty by assumption.
    simpl. now rewrite Hlater.
  - rewrite Hnamed. unfold users_named. rewrite Husers, filter_app.
    rewrite (filter_user_none _ _ Hnone). simpl.
    rewrite Heq, String.eqb_refl. reflexivity.
Qed.

(** The race, for any username: two registrations in flight for a
    username the store does not hold, each awaiting [findOne] before
    either inserts, both answer 201 when the users collection has no
    unique index on the username, and the store ends with two records for
    that username. *)
Lemma registration_race :
  forall (db : Db) (env1 env2 : Env) (req1 req2 : Request)
         (username password1 password2 : string),
    Body.username (body req1) = Some username ->
    Body.password (body req1) = Some password1 ->
    Body.username (body req2) = Some username ->
    Body.password (body req2) = Some password2 ->
    username <> "" -> password1 <> "" -> password2 <> "" ->
    find (fun u => User.username u =? username) (users db) = None ->
    ~ In (fresh_id env1) (map User._id (users db)) ->
    ~ In (fresh_id env2) (map User._id (users db)) ->
    fresh_id env1 <> fresh_id env2 ->
    users_username_unique db = false ->
    exists db',
      interleave [true; false; true; false]
                 (registerUser env1 req1) (registerUser env2 req2) db
      = (Return (Sent (mkResponse 201
           (response_token "User registered successfully."
              (jwt_sign username secret_key expiresIn (now env1))))),
         Return (Sent (mkResponse 201
           (response_token "User registered successfully."
              (jwt_sign username secret_key expiresIn (now env2))))),
         db')
      /\ length (users_named username db') = 2.
Proof.
  intros db env1 env2 req1 req2 username p1 p2 Hu1 Hp1 Hu2 Hp2
         Hune Hp1ne Hp2ne Hnone Hf1 Hf2 Hdiff Hidx.
  unfold registerUser. rewrite Hu1, Hp1, Hu2, Hp2.
  rewrite !truthy_nonempty by assumption.
  simpl. rewrite Hnone. simpl.
  rewrite (existsb_user_id_false _ _ Hf1), Hidx. simpl.
  rewrite existsb_app. simpl.
  rewrite (existsb_user_id_false _ _ Hf2).
  apply N.eqb_neq in Hdiff. rewrite Hdiff. simpl.
  rewrite Hidx. simpl.
  eexists. split; [reflexivity|].
  unfold users_named. simpl. rewrite !filter_app. simpl.
  rewrite (filter_user_none _ _ Hnone), String.eqb_refl. reflexivity.
Qed.

End Accounts.

(** ** The registration race *)

Section Race.

Context {lib : Libraries}.

(** C8 fails on the handler.  Two registrations for "alice" reach an empty
    store together; each awaits [findOne] before either awaits
    [insertOne].  Without a unique index on the username both are answered
    201 and the store holds two records for "alice".  With the index the
    second insert is rejected and its request is answered 500 with the
    driver's message, not 400 "Username already exists.". *)
Theorem concurrent_registrations :
  let first := registerUser (mkEnv 0 "s1" 1%N)
                            (Reference.credentials "alice" "pw1") in
  let second := registerUser (mkEnv 0 "s2" 2%N)
                             (Reference.credentials "alice" "pw2") in
  let created (clock : nat) :=
    Return (Sent (mkResponse 201
      (response_token "User registered successfully."
         (jwt_sign "alice" secret_key expiresIn clock)))) in
  let alice1 := User.mk 1%N "alice" (bcrypt_hash "pw1" saltRounds "s1") in
  let alice2 := User.mk 2%N "alice" (bcrypt_hash "pw2" saltRounds "s2") in
  interleave [true; false; true; false] first second Reference.empty
  = (created 0, created 0, mkDb [alice1; alice2] [] false)
  /\ length (users_named "alice" (mkDb [alice1; alice2] [] false)) = 2
  /\ interleave [true; false; true; false] first second
                Reference.empty_indexed
     = (created 0,
        Return (Sent (mkResponse 500 (error_message MongoServerError))),
        mkDb [alice1] [] true).
Proof. repeat split. Qed.

End Race.

(** ** The reference libraries meet the contracts *)

Section ReferenceContracts.

Lemma reference_compare_hash (data : string) (rounds : nat) (salt : string) :
  Reference.compare data (Reference.hash data rounds salt) = true.
Proof.
  unfold Reference.compare, Reference.hash.
  induction data as [|c data IH]; simpl.
  - destruct (ascii_dec "$" "$"); [|contradiction].
    now destruct salt.
  - destruct (ascii_dec c c); [exact IH|contradiction].
Qed.

Lemma reference_untally (k n : nat) (rest : string) :
  Reference.untally (Reference.tally k ++ "." ++ rest) n = Some (n + k, rest).
Proof.
  revert n. induction k as [|k IH]; intros n; simpl.
  - now rewrite Nat.add_0_r.
  - rewrite IH. f_equal. f_equal. lia.
Qed.

Lemma reference_strip (key rest : string) :
  Reference.strip key (key ++ rest) = Some rest.
Proof.
  induction key as [|c key IH]; simpl; [reflexivity|].
  now rewrite Ascii.eqb_refl.
Qed.

Lemma reference_verify_sign (name key : string) (expires issued clock : nat) :
  clock < issued + expires ->
  Reference.verify (Reference.sign name key expires issued) key clock
  = Some name.
Proof.
  intros H. unfold Reference.verify, Reference.sign.
  rewrite reference_untally. simpl.
  apply Nat.ltb_lt in H. rewrite H. apply reference_strip.
Qed.

Lemma reference_hex (i : ObjectId) :
  Reference.isValid (Reference.toHexString i) = true
  /\ Reference.new (Reference.toHexString i) = Some i.
Proof.
  unfold Reference.isValid, Reference.new, Reference.toHexString.
  rewrite NilEmpty.usu. simpl. now rewrite Unsigned.of_to.
Qed.

End ReferenceContracts.

(** ** The theorems at work on the scenario *)

Section Scenario.

Import Reference.

Local Existing Instance Reference.lib.

Lemma alice_db_unique : unique_ids alice_db.
Proof. repeat constructor. intros []. Qed.

Lemma bob_is_bob :
  identity (at_clock 5 0) (request as_bob "a" None None) = Some "bob".
Proof. vm_compute. reflexivity. Qed.

(** C1 as stated fails: bob's update of alice's note with neither title
    nor content is answered 400, not 404. *)
Lemma foreign_update_without_fields :
  In alice_note (notes alice_db)
  /\ Note.username alice_note = "alice"
  /\ identity (at_clock 5 0) (request as_bob "a" None None) = Some "bob"
  /\ ObjectId_new "a" = Some (Note._id alice_note)
  /\ run (editNote (at_clock 5 0) (request as_bob "a" None None)) alice_db
     = (Sent (mkResponse 400
          (error "A title or content are needed to update the note")),
        alice_db, [])
  /\ fst (fst (run (editNote (at_clock 5 0) (request as_bob "a" None None))
                   alice_db)) <> not_found.
Proof.
  vm_compute. repeat split; auto. discriminate.
Qed.

(** Bob, with a valid token, asks for alice's note by its id. *)
Lemma ownership_isolation_witness :
  fst (fst (run (getNote (at_clock 5 0) (request as_bob "a" (Some "x") None))
                alice_db)) = not_found
  /\ fst (fst (run (deleteNote (at_clock 5 0)
                               (request as_bob "a" (Some "x") None))
                   alice_db)) = not_found
  /\ fst (fst (run (editNote (at_clock 5 0)
                             (request as_bob "a" (Some "x") None))
                   alice_db)) = not_found
  /\ notes_of "alice"
       (snd (fst (run (app GET_deleteNote (at_clock 5 0)
                           (request as_bob "a" (Some "x") None))
                      alice_db)))
     = [alice_note].
Proof.
  destruct (ownership_isolation alice_db alice_note "alice" "bob"
              (at_clock 5 0) (request as_bob "a" (Some "x") None))
    as (Hall & _ & _ & Hid).
  - exact alice_db_unique.
  - simpl. auto.
  - reflexivity.
  - discriminate.
  - vm_compute. reflexivity.
  - destruct (Hid eq_refl eq_refl) as (Hget & Hdel & Hedit).
    destruct (Hall GET_deleteNote) as [_ Hframe].
    repeat split; assumption.
Defined.

(** C2 as stated fails: with a token that does not verify, create with no
    title is answered 400 and get with a malformed id is answered 400. *)
Lemma invalid_token_not_always_401 :
  identity (at_clock 5 0) (request (bearing "forged") "not-an-id" None None)
  = None
  /\ run (postNote (at_clock 5 0)
                   (request (bearing "forged") "not-an-id" None None))
         alice_db
     = (Sent (mkResponse 400 (error "Title and content are both required.")),
        alice_db, [])
  /\ run (getNote (at_clock 5 0)
                  (request (bearing "forged") "not-an-id" None None))
         alice_db
     = (Sent (mkResponse 400 (error "Invalid note ID.")), alice_db, []).
Proof. vm_compute. repeat split. Qed.

(** A forged token on requests that pass the earlier checks. *)
Lemma invalid_token_unauthorized_witness :
  run (postNote (at_clock 5 0)
                (request (bearing "forged") "a" (Some "t") (Some "c")))
      alice_db
  = (unauthorized, alice_db, [])
  /\ run (getAllNotes (at_clock 5 0)
                      (request (bearing "forged") "a" (Some "t") (Some "c")))
         alice_db
     = (unauthorized, alice_db, [])
  /\ run (getNote (at_clock 5 0)
                  (request (bearing "forged") "a" (Some "t") (Some "c")))
         alice_db
     = (unauthorized, alice_db, []).
Proof.
  destruct (invalid_token_unauthorized (at_clock 5 0)
              (request (bearing "forged") "a" (Some "t") (Some "c"))
              alice_db "Bearer forged")
    as (Hpost & Hlist & Hid).
  - reflexivity.
  - vm_compute. reflexivity.
  - destruct (Hid eq_refl) as (Hget & _ & _).
    exact (conj (Hpost eq_refl eq_refl) (conj Hlist Hget)).
Defined.

(** An expired token is one that does not verify: alice's token, issued
    at 0, is refused at 3600. *)
Lemma expired_token_unauthorized :
  identity (at_clock 3599 0) (request as_alice "a" None None) = Some "alice"
  /\ run (getAllNotes (at_clock 3600 0) (request as_alice "a" None None))
         alice_db
     = (unauthorized, alice_db, []).
Proof. vm_compute. split; reflexivity. Qed.

(** A malformed id with no Authorization header at all. *)
Lemma invalid_id_precedes_authentication_witness :
  run (getNote (at_clock 5 0) (request None "not-an-id" None None)) alice_db
  = (Sent (mkResponse 400 (error "Invalid note ID.")), alice_db, [])
  /\ run (deleteNote (at_clock 5 0) (request None "not-an-id" None None))
         alice_db
     = (Sent (mkResponse 400 (error "Invalid note ID.")), alice_db, [])
  /\ run (editNote (at_clock 5 0) (request None "not-an-id" None None))
         alice_db
     = (Sent (mkResponse 400 (error "Invalid note ID.")), alice_db, []).
Proof.
  apply (invalid_id_precedes_authentication (at_clock 5 0)
           (request None "not-an-id" None None) alice_db).
  reflexivity.
Defined.

Lemma alice_is_alice (noteId : string) (title content : JsString) :
  identity (at_clock 5 0) (request as_alice noteId title content)
  = Some "alice".
Proof. vm_compute. reflexivity. Qed.

(** Alice registers on an empty store and logs in ten seconds later. *)
Lemma register_login_roundtrip_witness :
  status_of (fst (fst (run (registerUser (at_clock 0 1)
                                         (credentials "alice" "pw"))
                           empty))) = Some 201
  /\ status_of
       (fst (fst (run (loginUser (at_clock 10 0) (credentials "alice" "pw"))
                      (snd (fst (run (registerUser (at_clock 0 1)
                                        (credentials "alice" "pw"))
                                     empty))))))
     = Some 200
  /\ jwt_verify (jwt_sign "alice" secret_key expiresIn 0) secret_key 3599
     = Some "alice"
  /\ jwt_verify (jwt_sign "alice" secret_key expiresIn 10) secret_key 3599
     = Some "alice".
Proof.
  destruct (register_login_roundtrip empty (at_clock 0 1) (at_clock 10 0)
              (credentials "alice" "pw") (credentials "alice" "pw") []
              "alice" "pw")
    as (Hreg & Hlogin & Htok & Htok').
  - exact reference_compare_hash.
  - exact reference_verify_sign.
  - reflexivity.
  - reflexivity.
  - reflexivity.
  - reflexivity.
  - discriminate.
  - discriminate.
  - reflexivity.
  - simpl. tauto.
  - cbn [serve] in Hlogin. rewrite Hreg, Hlogin.
    split; [reflexivity|]. split; [reflexivity|]. split.
    + apply (Htok 3599). unfold expiresIn. simpl. lia.
    + apply (Htok' 3599). unfold expiresIn. simpl. lia.
Defined.

(** An unknown user and a wrong password against the same store. *)
Lemma login_failures_indistinguishable_witness :
  fst (fst (run (loginUser (at_clock 5 0) (credentials "bob" "pw"))
                alice_registered))
  = Sent (mkResponse 401 (error "Authentication failed."))
  /\ fst (fst (run (loginUser (at_clock 5 0) (credentials "alice" "wrong"))
                   alice_registered))
     = fst (fst (run (loginUser (at_clock 5 0) (credentials "bob" "pw"))
                     alice_registered)).
Proof.
  destruct (login_failures_indistinguishable (at_clock 5 0) (at_clock 5 0)
              (credentials "bob" "pw") (credentials "alice" "wrong")
              alice_registered alice_registered
              "bob" "pw" "alice" "wrong" alice_user)
    as (Hunknown & Hsame & _); try reflexivity; try discriminate.
  exact (conj Hunknown Hsame).
Defined.

(** Alice deletes a note she does not have, then the one she has. *)
Lemma delete_behaviour_witness :
  run (deleteNote (at_clock 5 0) (request as_alice "b" None None)) alice_db
  = (not_found, alice_db, [notes_findOneAndDelete "alice" 11%N])
  /\ fst (fst (run (deleteNote (at_clock 5 0)
                               (request as_alice "a" None None))
                   alice_db))
     = deleted "a"
  /\ fst (fst (run (getNote (at_clock 9 0) (request as_alice "a" None None))
                   (snd (fst (run (deleteNote (at_clock 5 0)
                                     (request as_alice "a" None None))
                                  alice_db)))))
     = not_found.
Proof.
  split.
  - apply (delete_behaviour alice_db (at_clock 5 0)
             (request as_alice "b" None None) "alice" 11%N).
    + apply alice_is_alice.
    + reflexivity.
    + reflexivity.
    + simpl. intros n [<- | []] [_ H]. discriminate.
  - destruct (delete_behaviour alice_db (at_clock 5 0)
                (request as_alice "a" None None) "alice" 10%N)
      as [_ Hdel].
    + apply alice_is_alice.
    + reflexivity.
    + reflexivity.
    + destruct (Hdel alice_note alice_db_unique) as (Hok & _ & _ & Hget).
      * simpl. auto.
      * reflexivity.
      * reflexivity.
      * split; [exact Hok|].
        rewrite (Hget (at_clock 9 0) (request as_alice "a" None None)
                      "alice"); [reflexivity| |reflexivity].
        vm_compute. reflexivity.
Defined.

(** Alice retitles her note and sends no content. *)
Lemma update_frame_witness :
  find (owned_by "alice" 10%N)
       (notes (snd (fst (run (editNote (at_clock 5 0)
                                 (request as_alice "a" (Some "T2") None))
                              alice_db))))
  = Some (Note.mk 10%N "T2" "c" "alice")
  /\ keys (snd (fst (run (editNote (at_clock 5 0)
                            (request as_alice "a" (Some "T2") None))
                         alice_db)))
     = [(10%N, "alice")].
Proof.
  destruct (update_frame alice_db (at_clock 5 0)
              (request as_alice "a" (Some "T2") None) alice_note)
    as (Htitle & _ & _ & Hkeys).
  - exact alice_db_unique.
  - simpl. auto.
  - apply alice_is_alice.
  - reflexivity.
  - reflexivity.
  - destruct (Htitle "T2") as (_ & Hstored & _).
    + reflexivity.
    + discriminate.
    + reflexivity.
    + split; [exact Hstored|]. rewrite Hkeys. reflexivity.
Defined.

(** Alice registers twice in a row. *)
Lemma duplicate_registration_witness :
  run (registerUser (at_clock 7 2) (credentials "alice" "other"))
      (snd (fst (run (registerUser (at_clock 0 1) (credentials "alice" "pw"))
                     empty)))
  = (Sent (mkResponse 400 (error "Username already exists.")),
     snd (fst (run (registerUser (at_clock 0 1) (credentials "alice" "pw"))
                   empty)),
     [users_findOne "alice"]).
Proof.
  apply (duplicate_registration empty (at_clock 0 1) (at_clock 7 2)
           (credentials "alice" "pw") (credentials "alice" "other") []
           "alice" "other").
  - reflexivity.
  - reflexivity.
  - reflexivity.
  - reflexivity.
  - discriminate.
Defined.

(** Alice creates a note and reads it back by the id she was given. *)
Lemma create_get_roundtrip_witness :
  run (getNote (at_clock 9 0) (request as_alice "1" None None))
      (snd (fst (run (postNote (at_clock 5 1)
                        (request as_alice "" (Some "t") (Some "c")))
                     empty)))
  = (Sent (mkResponse 200 (response_note (Note.mk 1%N "t" "c" "alice"))),
     mkDb [] [Note.mk 1%N "t" "c" "alice"] false,
     [notes_findOne "alice" 1%N]).
Proof.
  destruct (create_get_roundtrip empty (at_clock 5 1)
              (request as_alice "" (Some "t") (Some "c"))
              "alice" "t" "c")
    as (Hpost & Hget).
  - exact reference_hex.
  - vm_compute. reflexivity.
  - reflexivity.
  - discriminate.
  - reflexivity.
  - discriminate.
  - simpl. tauto.
  - rewrite Hpost. simpl.
    apply (Hget (at_clock 9 0) (request as_alice "1" None None)).
    + vm_compute. reflexivity.
    + reflexivity.
Defined.

End Scenario.

(** * Further properties of the handlers *)

(** ** What one request can do to the store *)

Ltac branches :=
  repeat (simpl in *;
          match goal with
          | |- context [match ?x with _ => _ end] =>
              lazymatch x with
              | context [match _ with _ => _ end] => fail
              | _ => destruct x eqn:?
              end
          end).

Ltac caller :=
  match goal with
  | H : headers_authorization ?req = Some _ |- identity _ ?req = Some _ =>
      unfold identity; rewrite H; assumption
  end.

Ltac nonempty :=
  match goal with
  | H : truthy _ = Some ?s |- ?s <> "" => exact (proj2 (truthy_inv _ _ H))
  end.

Section Effects.

Context {lib : Libraries}.

(** The store after a request is the store before it, or it differs by
    exactly one of four changes, each made under a 2xx answer: a user
    appended by registration, a note appended by create, the caller's note
    removed by delete, the caller's note rewritten by update. *)
Lemma run_effect (r : Route) (env : Env) (req : Request) (db : Db) :
  snd (fst (run (app r env req) db)) = db
  \/ (exists username password,
         r = POST_registerUser
         /\ username <> "" /\ password <> ""
         /\ find (fun u => User.username u =? username) (users db) = None
         /\ snd (fst (run (app r env req) db))
            = set_users db
                (users db
                 ++ [User.mk (fresh_id env) username
                             (bcrypt_hash password saltRounds (salt env))])
         /\ status_of (fst (fst (run (app r env req) db))) = Some 201)
  \/ (exists u title content,
         r = POST_postNote
         /\ identity env req = Some u /\ title <> "" /\ content <> ""
         /\ snd (fst (run (app r env req) db))
            = set_notes db
                (notes db ++ [Note.mk (fresh_id env) title content u])
         /\ status_of (fst (fst (run (app r env req) db))) = Some 200)
  \/ (exists u i n,
         r = GET_deleteNote
         /\ identity env req = Some u
         /\ find (owned_by u i) (notes db) = Some n
         /\ snd (fst (run (app r env req) db))
            = set_notes db (delete_first (owned_by u i) (notes db))
         /\ status_of (fst (fst (run (app r env req) db))) = Some 200)
  \/ (exists u i n,
         r = GET_editNote
         /\ identity env req = Some u
         /\ find (owned_by u i) (notes db) = Some n
         /\ snd (fst (run (app r env req) db))
            = set_notes db
                (update_first (owned_by u i)
                   (set_fields
                      (js_or (Body.title (body req)) (Note.title n))
                      (js_or (Body.content (body req)) (Note.content n)))
                   (notes db))
         /\ status_of (fst (fst (run (app r env req) db))) = Some 200).
Proof.
  destruct r; simpl;
    unfold registerUser, loginUser, postNote, getNote, getAllNotes,
           deleteNote, editNote, with_token, not_found, invalid_id;
    branches; try (left; reflexivity).
  - right; left. do 2 eexists.
    repeat split; try reflexivity; try nonempty; assumption.
  - right; right; left. do 3 eexists.
    repeat split; try reflexivity; try nonempty; caller.
  - right; right; right; left. do 3 eexists.
    repeat split; try reflexivity; try eassumption; caller.
  - left. rewrite delete_first_none by assumption. apply set_notes_same.
  - right; right; right; right. do 3 eexists.
    repeat split; try reflexivity; try eassumption; caller.
Qed.

End Effects.

(** ** Checks that come before the store *)

Section Checks.

Context {lib : Libraries}.

(** X1.  Register, login and create check their body fields first: when
    the username or the password (for create: the title or the content) is
    absent or empty, the answer is 400 with the route's message and no store
    operation is performed.  For create this holds whatever the
    Authorization header is, a missing one included, since the header is
    read only afterwards. *)
Theorem missing_fields_answer_400 :
  forall (env : Env) (req : Request) (db : Db),
    (falsy (Body.username (body req)) || falsy (Body.password (body req))
     = true ->
     run (registerUser env req) db
     = (Sent (mkResponse 400
          (error "Username and password both needed to register.")),
        db, [])
     /\ run (loginUser env req) db
        = (Sent (mkResponse 400
             (error "Username and password both needed to login.")),
           db, []))
    /\ (falsy (Body.title (body req)) || falsy (Body.content (body req))
        = true ->
        run (postNote env req) db
        = (Sent (mkResponse 400
             (error "Title and content are both required.")),
           db, [])).
Proof.
  intros env req db. split.
  - rewrite !truthy_falsy. unfold registerUser, loginUser.
    destruct (truthy (Body.username (body req)));
      destruct (truthy (Body.password (body req)));
      simpl; intros H; try discriminate; auto.
  - rewrite !truthy_falsy. unfold postNote.
    destruct (truthy (Body.title (body req)));
      destruct (truthy (Body.content (body req)));
      simpl; intros H; try discriminate; auto.
Qed.

(** X2.  A note request with no Authorization header, once past the check
    its route runs first (title and content for create, the id for get,
    delete and update), is answered 500 with the message of the TypeError
    that reading [split] of undefined throws; no store operation is
    performed. *)
Theorem missing_header_answers_500 :
  forall (env : Env) (req : Request) (db : Db),
    headers_authorization req = None ->
    let crashed := Sent (mkResponse 500 (error_message TypeError)) in
    (falsy (Body.title (body req)) = false ->
     falsy (Body.content (body req)) = false ->
     run (postNote env req) db = (crashed, db, []))
    /\ run (getAllNotes env req) db = (crashed, db, [])
    /\ (ObjectId_isValid (params_noteId req) = true ->
        run (getNote env req) db = (crashed, db, [])
        /\ run (deleteNote env req) db = (crashed, db, [])
        /\ run (editNote env req) db = (crashed, db, [])).
Proof.
  intros env req db Hmissing crashed. subst crashed. repeat split.
  - rewrite !truthy_falsy. unfold postNote.
    destruct (truthy (Body.title (body req))); [|discriminate].
    destruct (truthy (Body.content (body req))); [|discriminate].
    intros _ _. now rewrite (with_token_missing _ _ _ Hmissing).
  - unfold getAllNotes. now rewrite (with_token_missing _ _ _ Hmissing).
  - unfold getNote. rewrite H. simpl.
    now rewrite (with_token_missing _ _ _ Hmissing).
  - unfold deleteNote. rewrite H. simpl.
    now rewrite (with_token_missing _ _ _ Hmissing).
  - unfold editNote. rewrite H. simpl.
    now rewrite (with_token_missing _ _ _ Hmissing).
Qed.



End Checks.

(** ** What requests leave alone, and what the store keeps *)

Section Shape.

Context {lib : Libraries}.

(** X5.  A request that is not answered 200 or 201, whether it is answered
    with an error or not answered at all, leaves the store exactly as it
    was. *)
Theorem unsuccessful_requests_change_nothing :
  forall (r : Route) (env : Env) (req : Request) (db : Db),
    status_of (fst (fst (run (app r env req) db))) <> Some 200 ->
    status_of (fst (fst (run (app r env req) db))) <> Some 201 ->
    snd (fst (run (app r env req) db)) = db.
Proof.
  intros r env req db H200 H201.
  destruct (run_effect r env req db)
    as [H | [(? & ? & _ & _ & _ & _ & _ & H) |
       [(? & ? & ? & _ & _ & _ & _ & _ & H) |
       [(? & ? & ? & _ & _ & _ & _ & H) | (? & ? & ? & _ & _ & _ & _ & H)]]]];
    [assumption | contradiction..].
Qed.

(** X6.  Login, get and list never change the store, whatever the request
    and whatever they answer. *)
Theorem reading_routes_change_nothing :
  forall (env : Env) (req : Request) (db : Db),
    snd (fst (run (loginUser env req) db)) = db
    /\ snd (fst (run (getNote env req) db)) = db
    /\ snd (fst (run (getAllNotes env req) db)) = db.
Proof.
  intros env req db. repeat split.
  - destruct (run_effect POST_loginUser env req db)
      as [H | [(? & ? & H & _) | [(? & ? & ? & H & _) |
         [(? & ? & ? & H & _) | (? & ? & ? & H & _)]]]];
      [exact H | discriminate..].
  - destruct (run_effect GET_getNote env req db)
      as [H | [(? & ? & H & _) | [(? & ? & ? & H & _) |
         [(? & ? & ? & H & _) | (? & ? & ? & H & _)]]]];
      [exact H | discriminate..].
  - destruct (run_effect GET_getAllNotes env req db)
      as [H | [(? & ? & H & _) | [(? & ? & ? & H & _) |
         [(? & ? & ? & H & _) | (? & ? & ? & H & _)]]]];
      [exact H | discriminate..].
Qed.

(** X7.  The account routes never touch the notes collection and the note
    routes never touch the users collection: only registration can change
    the users, and neither registration nor login changes the notes. *)
Theorem collections_are_separate :
  forall (r : Route) (env : Env) (req : Request) (db : Db),
    (r <> POST_registerUser ->
     users (snd (fst (run (app r env req) db))) = users db)
    /\ (r = POST_registerUser \/ r = POST_loginUser ->
        notes (snd (fst (run (app r env req) db))) = notes db).
Proof.
  intros r env req db.
  destruct (run_effect r env req db)
    as [H | [(? & ? & Hr & _ & _ & _ & H & _) |
       [(? & ? & ? & Hr & _ & _ & _ & H & _) |
       [(? & ? & ? & Hr & _ & _ & H & _) |
        (? & ? & ? & Hr & _ & _ & H & _)]]]];
    rewrite H; split; intros Hroute; try reflexivity;
    try (subst r; destruct Hroute; try discriminate; congruence).
Qed.

(** X8.  User records are only ever appended: after any sequence of
    requests the users collection starts with the records it held before, in
    the same order and unchanged. *)
Theorem users_append_only :
  forall (reqs : list (Route * Env * Request)) (db : Db),
    exists registered,
      users (serve reqs db) = (users db ++ registered)%list.
Proof.
  induction reqs as [|[[r env] req] rest IH]; intros db; simpl.
  - exists []. now rewrite app_nil_r.
  - destruct (IH (snd (fst (run (app r env req) db)))) as [l Hl].
    destruct (run_users r env req db) as [H | (doc & H & _)];
      rewrite Hl, H.
    + now exists l.
    + exists (doc :: l). now rewrite <- app_assoc.
Qed.

Lemma find_user_absent (l : list User.t) (name : string) :
  find (fun u => User.username u =? name) l = None ->
  ~ In name (map User.username l).
Proof.
  induction l as [|x l IH]; simpl; [tauto|].
  destruct (User.username x =? name) eqn:E; [discriminate|].
  apply String.eqb_neq in E. intros H [Hx | Hin]; [contradiction|].
  now apply IH.
Qed.

(** X9.  Served one after the other, requests keep usernames unique: if no
    two user records share a username before, none do after any sequence of
    requests. *)
Theorem usernames_stay_unique :
  forall (reqs : list (Route * Env * Request)) (db : Db),
    unique_usernames db -> unique_usernames (serve reqs db).
Proof.
  unfold unique_usernames.
  induction reqs as [|[[r env] req] rest IH]; intros db H; simpl;
    [assumption|].
  apply IH.
  destruct (run_users r env req db) as [-> | (doc & -> & Hnone)];
    [assumption|].
  rewrite map_app. simpl.
  apply NoDup_app; [assumption | repeat constructor; simpl; tauto |].
  intros name Hin [<- | []]. now apply (find_user_absent _ _ Hnone).
Qed.

(** X10.  The store never receives a password in the clear from the
    server: if every user record holds a non-empty username and the bcrypt
    hash, at ten rounds, of a non-empty password, the same is true after any
    sequence of requests. *)
Theorem stored_passwords_are_hashes :
  forall (reqs : list (Route * Env * Request)) (db : Db),
    Forall hashed (users db) -> Forall hashed (users (serve reqs db)).
Proof.
  induction reqs as [|[[r env] req] rest IH]; intros db H; simpl;
    [assumption|].
  apply IH.
  destruct (run_effect r env req db)
    as [E | [(username & password & _ & Hu & Hp & _ & E & _) |
       [(? & ? & ? & _ & _ & _ & _ & E & _) |
       [(? & ? & ? & _ & _ & _ & E & _) |
        (? & ? & ? & _ & _ & _ & E & _)]]]];
    rewrite E; simpl; try assumption.
  apply Forall_app. split; [assumption|].
  constructor; [|constructor].
  split; [exact Hu|]. exists password, (salt env). split; [exact Hp|reflexivity].
Qed.

Lemma Forall_delete_first (P : Note.t -> Prop) (f : Note.t -> bool)
      (l : list Note.t) :
  Forall P l -> Forall P (delete_first f l).
Proof.
  induction 1 as [|x l Hx Hl IH]; simpl; [constructor|].
  destruct (f x); [assumption|]. now constructor.
Qed.

Lemma Forall_update_first (P : Note.t -> Prop) (f : Note.t -> bool)
      (g : Note.t -> Note.t) (l : list Note.t) :
  (forall n, P (g n)) -> Forall P l -> Forall P (update_first f g l).
Proof.
  intros Hg. induction 1 as [|x l Hx Hl IH]; simpl; [constructor|].
  destruct (f x); constructor; auto.
Qed.

Lemma js_or_nonempty (v : JsString) (d : string) :
  d <> "" -> js_or v d <> "".
Proof.
  intros Hd. unfold js_or. destruct (truthy v) as [s|] eqn:E; [|exact Hd].
  exact (proj2 (truthy_inv _ _ E)).
Qed.

(** X11.  Notes keep a title and a content: if every stored note has both
    non-empty, so has every stored note after any sequence of requests.
    Create refuses an empty field and update keeps the old value in place of
    an empty one. *)
Theorem notes_stay_filled :
  forall (reqs : list (Route * Env * Request)) (db : Db),
    notes_filled db -> notes_filled (serve reqs db).
Proof.
  unfold notes_filled.
  induction reqs as [|[[r env] req] rest IH]; intros db H; simpl;
    [assumption|].
  apply IH.
  destruct (run_effect r env req db)
    as [E | [(? & ? & _ & _ & _ & _ & E & _) |
       [(u & title & content & _ & _ & Ht & Hc & E & _) |
       [(? & ? & ? & _ & _ & _ & E & _) |
        (u & i & n & _ & _ & Hfind & E & _)]]]];
    rewrite E; simpl; try assumption.
  - apply Forall_app. split; [assumption|]. repeat constructor; assumption.
  - now apply Forall_delete_first.
  - apply Forall_update_first; [|assumption].
    apply find_some in Hfind. destruct Hfind as [Hin _].
    rewrite Forall_forall in H. destruct (H n Hin) as [Ht Hc].
    intros m. simpl. split; now apply js_or_nonempty.
Qed.

End Shape.

(** ** Requests in sequence *)

Section Flows.

Context {lib : Libraries}.

Lemma split_no_space (t : string) : no_space t = true -> split " " t = [t].
Proof.
  induction t as [|c t IH]; simpl; [reflexivity|].
  destruct (Ascii.eqb c " "); simpl; [discriminate|].
  intros H. now rewrite (IH H).
Qed.

Lemma bearer_token (t : string) :
  no_space t = true -> bearer ("Bearer " ++ t) = Some t.
Proof.
  intros H. unfold bearer. simpl. now rewrite (split_no_space _ H).
Qed.

(** X12.  The token a registration returns opens the note routes for one
    hour.  Sent back as [Bearer <token>], it lets list answer 200 with that
    user's notes while the clock is before issue time plus 3600 seconds, and
    gets 401 from then on.  The token is assumed to hold no space, and
    jsonwebtoken to return the signed username before expiry and an error
    at or after it. *)
Theorem issued_token_authenticates :
  forall (db db1 : Db) (env env' : Env) (req req' : Request)
         (username password : string),
    (forall name key expires issued clock,
        clock < issued + expires ->
        jwt_verify (jwt_sign name key expires issued) key clock = Some name) ->
    (forall name key expires issued clock,
        issued + expires <= clock ->
        jwt_verify (jwt_sign name key expires issued) key clock = None) ->
    Body.username (body req) = Some username -> username <> "" ->
    Body.password (body req) = Some password -> password <> "" ->
    find (fun u => User.username u =? username) (users db) = None ->
    ~ In (fresh_id env) (map User._id (users db)) ->
    let token := jwt_sign username secret_key expiresIn (now env) in
    no_space token = true ->
    headers_authorization req' = Some ("Bearer " ++ token) ->
    fst (fst (run (registerUser env req) db))
    = Sent (mkResponse 201
              (response_token "User registered successfully." token))
    /\ (now env' < now env + 3600 ->
        run (getAllNotes env' req') db1
        = (Sent (mkResponse 200 (response_notes (notes_of username db1))),
           db1, [notes_find username]))
    /\ (now env + 3600 <= now env' ->
        run (getAllNotes env' req') db1 = (unauthorized, db1, [])).
Proof.
  intros db db1 env env' req req' username password Hsound Hexpiry
         Hu Hune Hp Hpne Hnone Hfresh token Hspace Hheader.
  split; [|split].
  - now rewrite (registerUser_new env req db username password).
  - intros Hclock.
    assert (Hid : identity env' req' = Some username).
    { unfold identity. rewrite Hheader, (bearer_token _ Hspace). simpl.
      apply Hsound. exact Hclock. }
    unfold getAllNotes. now rewrite (with_token_valid _ _ _ _ Hid).
  - intros Hclock.
    assert (Hid : identity env' req' = None).
    { unfold identity. rewrite Hheader, (bearer_token _ Hspace). simpl.
      apply Hexpiry. exact Hclock. }
    unfold getAllNotes. now rewrite (with_token_invalid _ _ _ _ Hheader Hid).
Qed.

(** X13.  The owner reads a note back as it is stored: for a note of the
    caller, addressed by its id with a valid token, get answers 200 with
    exactly that document and leaves the store unchanged. *)
Theorem owner_reads_note :
  forall (db : Db) (env : Env) (req : Request) (n : Note.t),
    unique_ids db -> In n (notes db) ->
    identity env req = Some (Note.username n) ->
    ObjectId_isValid (params_noteId req) = true ->
    ObjectId_new (params_noteId req) = Some (Note._id n) ->
    run (getNote env req) db
    = (Sent (mkResponse 200 (response_note n)), db,
       [notes_findOne (Note.username n) (Note._id n)]).
Proof.
  intros db env req n Huniq Hin Hid Hv Hn.
  rewrite (getNote_run _ _ _ _ _ Hid Hv Hn).
  now rewrite (find_own _ _ Huniq Hin).
Qed.

(** X14.  An update is visible to the next get: after the owner's update
    with at least one non-empty field, a get of the same id by the owner
    answers 200 with the same id and owner, each supplied field in place and
    each field not supplied (or supplied empty) as it was. *)
Theorem update_then_get :
  forall (db : Db) (env env' : Env) (req req' : Request) (n : Note.t),
    unique_ids db -> In n (notes db) ->
    identity env req = Some (Note.username n) ->
    ObjectId_isValid (params_noteId req) = true ->
    ObjectId_new (params_noteId req) = Some (Note._id n) ->
    falsy (Body.title (body req)) && falsy (Body.content (body req)) = false ->
    identity env' req' = Some (Note.username n) ->
    params_noteId req' = params_noteId req ->
    let db' := snd (fst (run (editNote env req) db)) in
    run (getNote env' req') db'
    = (Sent (mkResponse 200 (response_note
         (Note.mk (Note._id n)
                  (js_or (Body.title (body req)) (Note.title n))
                  (js_or (Body.content (body req)) (Note.content n))
                  (Note.username n)))),
       db', [notes_findOne (Note.username n) (Note._id n)]).
Proof.
  intros db env env' req req' n Huniq Hin Hid Hv Hn Hbody Hid' Hparam db'.
  destruct (editNote_owned _ _ _ _ Huniq Hin Hid Hv Hn Hbody)
    as (_ & Hstored & _).
  rewrite <- Hparam in Hv, Hn.
  rewrite (getNote_run _ _ _ _ _ Hid' Hv Hn). subst db'.
  now rewrite Hstored.
Qed.

Lemma find_after_delete (u v : string) (i : ObjectId) (l : list Note.t)
      (n : Note.t) :
  NoDup (map Note._id l) -> find (owned_by u i) l = Some n ->
  find (owned_by v i) (delete_first (owned_by u i) l) = None.
Proof.
  intros Hnd Hf. apply find_absent. intros m Hm [_ Hi].
  exact (delete_first_gone _ _ _ _ Hnd Hf m Hm Hi).
Qed.

(** X15.  A deleted note stays deleted: after the owner's delete has
    answered 200, a second delete of the same id, and an update of it that
    supplies a field, by any caller with a valid token, are answered 404
    and change nothing. *)
Theorem delete_is_final :
  forall (db : Db) (env env' : Env) (req req' : Request) (n : Note.t)
         (v : string),
    unique_ids db -> In n (notes db) ->
    identity env req = Some (Note.username n) ->
    ObjectId_isValid (params_noteId req) = true ->
    ObjectId_new (params_noteId req) = Some (Note._id n) ->
    identity env' req' = Some v ->
    params_noteId req' = params_noteId req ->
    let db' := snd (fst (run (deleteNote env req) db)) in
    fst (fst (run (deleteNote env req) db)) = deleted (params_noteId req)
    /\ run (deleteNote env' req') db'
       = (not_found, db', [notes_findOneAndDelete v (Note._id n)])
    /\ (falsy (Body.title (body req')) && falsy (Body.content (body req'))
        = false ->
        run (editNote env' req') db'
        = (not_found, db', [notes_findOne v (Note._id n)])).
Proof.
  intros db env env' req req' n v Huniq Hin Hid Hv Hn Hid' Hparam db'.
  subst db'. rewrite (deleteNote_run _ _ _ _ _ Hid Hv Hn).
  pose proof (find_own _ _ Huniq Hin) as Hown. rewrite Hown. simpl.
  pose proof (find_after_delete _ v _ _ _ Huniq Hown) as Hgone.
  rewrite <- Hparam in Hv, Hn.
  split; [reflexivity|]. split.
  - rewrite (deleteNote_run _ _ _ _ _ Hid' Hv Hn). simpl.
    rewrite Hgone, (delete_first_none _ _ Hgone). reflexivity.
  - intros Hbody. rewrite (editNote_run _ _ _ _ _ Hid' Hv Hn), Hbody.
    simpl. now rewrite Hgone.
Qed.

Lemma postNote_run (env : Env) (req : Request) (db : Db)
      (u title content : string) :
  identity env req = Some u ->
  Body.title (body req) = Some title -> title <> "" ->
  Body.content (body req) = Some content -> content <> "" ->
  ~ In (fresh_id env) (map Note._id (notes db)) ->
  run (postNote env req) db
  = (Sent (mkResponse 200
       (response_insertedId "Note added succesfully." (fresh_id env))),
     set_notes db (notes db ++ [Note.mk (fresh_id env) title content u]),
     [notes_insertOne (Note.mk (fresh_id env) title content u)]).
Proof.
  intros Hid Ht Htne Hc Hcne Hfresh.
  unfold postNote. rewrite Ht, Hc, !truthy_nonempty by assumption.
  rewrite (with_token_valid _ _ _ _ Hid). simpl.
  apply existsb_id_false in Hfresh. now rewrite Hfresh.
Qed.

Lemma delete_first_app_fresh (l : list Note.t) (n : Note.t) :
  ~ In (Note._id n) (map Note._id l) ->
  delete_first (owned_by (Note.username n) (Note._id n)) (l ++ [n]) = l.
Proof.
  induction l as [|x l IH]; simpl; intros H.
  - now rewrite owned_by_self.
  - destruct (owned_by (Note.username n) (Note._id n) x) eqn:E.
    + apply owned_by_iff in E. tauto.
    + f_equal. apply IH. tauto.
Qed.

(** X16.  Create followed by delete of the id just returned puts the store
    back exactly as it was: the same notes in the same order.  The id is
    sent as [toHexString] writes it, both requests carry a valid token of
    the same user, and the driver's new id is unused. *)
Theorem create_then_delete_restores :
  forall (db : Db) (env env' : Env) (req req' : Request)
         (u title content : string),
    (forall i, ObjectId_isValid (ObjectId_toHexString i) = true
               /\ ObjectId_new (ObjectId_toHexString i) = Some i) ->
    identity env req = Some u ->
    Body.title (body req) = Some title -> title <> "" ->
    Body.content (body req) = Some content -> content <> "" ->
    ~ In (fresh_id env) (map Note._id (notes db)) ->
    identity env' req' = Some u ->
    params_noteId req' = ObjectId_toHexString (fresh_id env) ->
    let db1 := snd (fst (run (postNote env req) db)) in
    run (deleteNote env' req') db1
    = (deleted (params_noteId req'), db,
       [notes_findOneAndDelete u (fresh_id env)]).
Proof.
  intros db env env' req req' u title content Hhex Hid Ht Htne Hc Hcne
         Hfresh Hid' Hparam db1. subst db1.
  rewrite (postNote_run _ _ _ _ _ _ Hid Ht Htne Hc Hcne Hfresh). simpl.
  destruct (Hhex (fresh_id env)) as [Hv Hn]. rewrite <- Hparam in Hv, Hn.
  rewrite (deleteNote_run _ _ _ _ _ Hid' Hv Hn). simpl.
  pose proof (find_app_fresh (notes db)
                (Note.mk (fresh_id env) title content u) Hfresh) as Hfound.
  pose proof (delete_first_app_fresh (notes db)
                (Note.mk (fresh_id env) title content u) Hfresh) as Hback.
  simpl in Hfound, Hback. rewrite Hfound, Hback.
  now destruct db.
Qed.

(** X17.  A created note shows up last in the caller's list: after a
    create answered 200, list with a valid token of the same user returns
    the notes it would have returned before, in the same order, followed by
    the new note. *)
Theorem create_appends_to_list :
  forall (db : Db) (env env' : Env) (req req' : Request)
         (u title content : string),
    identity env req = Some u ->
    Body.title (body req) = Some title -> title <> "" ->
    Body.content (body req) = Some content -> content <> "" ->
    ~ In (fresh_id env) (map Note._id (notes db)) ->
    identity env' req' = Some u ->
    let db1 := snd (fst (run (postNote env req) db)) in
    fst (fst (run (getAllNotes env' req') db1))
    = Sent (mkResponse 200 (response_notes
        (notes_of u db ++ [Note.mk (fresh_id env) title content u]))).
Proof.
  intros db env env' req req' u title content Hid Ht Htne Hc Hcne Hfresh
         Hid' db1. subst db1.
  rewrite (postNote_run _ _ _ _ _ _ Hid Ht Htne Hc Hcne Hfresh). simpl.
  unfold getAllNotes. rewrite (with_token_valid _ _ _ _ Hid'). simpl.
  unfold notes_of. rewrite filter_app. simpl.
  now rewrite String.eqb_refl.
Qed.

(** X18.  An update that loses a race with a delete still reports success.
    When the owner's update has read the note with [findOne] and a delete of
    the same note runs before the update's [findOneAndUpdate], the update
    finds nothing to change, ignores that, and answers 200 "properly
    updated"; the delete answers 200 as well and the note is gone. *)
Theorem update_races_with_delete :
  forall (db : Db) (env env' : Env) (req req' : Request) (n : Note.t),
    unique_ids db -> In n (notes db) ->
    identity env req = Some (Note.username n) ->
    identity env' req' = Some (Note.username n) ->
    ObjectId_isValid (params_noteId req) = true ->
    ObjectId_new (params_noteId req) = Some (Note._id n) ->
    params_noteId req' = params_noteId req ->
    falsy (Body.title (body req)) && falsy (Body.content (body req)) = false ->
    let db' := set_notes db (delete_first
                 (owned_by (Note.username n) (Note._id n)) (notes db)) in
    interleave [true; false; true] (editNote env req) (deleteNote env' req') db
    = (Return (updated (params_noteId req)),
       Return (deleted (params_noteId req')), db')
    /\ ~ In n (notes db')
    /\ find (owned_by (Note.username n) (Note._id n)) (notes db') = None.
Proof.
  intros db env env' req req' n Huniq Hin Hid Hid' Hv Hn Hparam Hbody db'.
  pose proof (find_own _ _ Huniq Hin) as Hown.
  pose proof (find_after_delete _ (Note.username n) _ _ _ Huniq Hown) as Hgone.
  split; [|split].
  - unfold editNote, deleteNote. rewrite Hparam, Hv. simpl.
    rewrite (with_token_valid _ _ _ _ Hid), (with_token_valid _ _ _ _ Hid').
    rewrite Hbody, Hn. simpl. rewrite Hown. simpl.
    rewrite (update_first_none _ _ _ Hgone). reflexivity.
  - subst db'. simpl. intros Habs.
    exact (delete_first_gone _ _ _ _ Huniq Hown n Habs eq_refl).
  - exact Hgone.
Qed.

End Flows.

(** ** The further properties at work on the scenario *)

Section MoreScenario.

Import Reference.

Local Existing Instance Reference.lib.

Lemma reference_verify_expired (name key : string)
      (expires issued clock : nat) :
  issued + expires <= clock ->
  Reference.verify (Reference.sign name key expires issued) key clock = None.
Proof.
  intros H. unfold Reference.verify, Reference.sign.
  rewrite reference_untally. simpl.
  apply Nat.ltb_ge in H. now rewrite H.
Qed.

Lemma alice_db_filled : notes_filled alice_db.
Proof. repeat constructor; discriminate. Qed.

(** No username on register and login; nothing at all on create. *)
Lemma missing_fields_answer_400_witness :
  status_of (fst (fst (run (registerUser (at_clock 5 0) (credentials "" "pw"))
                           alice_registered))) = Some 400
  /\ status_of (fst (fst (run (loginUser (at_clock 5 0) (credentials "" "pw"))
                              alice_registered))) = Some 400
  /\ run (postNote (at_clock 5 0) (request None "" None None)) alice_db
     = (Sent (mkResponse 400 (error "Title and content are both required.")),
        alice_db, []).
Proof.
  destruct (missing_fields_answer_400 (at_clock 5 0) (credentials "" "pw")
              alice_registered) as [Haccount _].
  destruct (missing_fields_answer_400 (at_clock 5 0)
              (request None "" None None) alice_db) as [_ Hcreate].
  destruct (Haccount eq_refl) as [Hreg Hlogin].
  rewrite Hreg, Hlogin.
  split; [reflexivity|]. split; [reflexivity|]. exact (Hcreate eq_refl).
Defined.

(** A create and a get that pass their first check but bring no header. *)
Lemma missing_header_answers_500_witness :
  run (postNote (at_clock 5 0) (request None "a" (Some "t") (Some "c")))
      alice_db
  = (Sent (mkResponse 500 (error_message TypeError)), alice_db, [])
  /\ run (getNote (at_clock 5 0) (request None "a" (Some "t") (Some "c")))
         alice_db
     = (Sent (mkResponse 500 (error_message TypeError)), alice_db, []).
Proof.
  destruct (missing_header_answers_500 (at_clock 5 0)
              (request None "a" (Some "t") (Some "c")) alice_db eq_refl)
    as (Hpost & _ & Hid).
  destruct (Hid eq_refl) as (Hget & _).
  exact (conj (Hpost eq_refl eq_refl) Hget).
Defined.



(** Bob's delete of alice's note is answered 404 and removes nothing. *)
Lemma unsuccessful_requests_change_nothing_witness :
  snd (fst (run (app GET_deleteNote (at_clock 5 0)
                     (request as_bob "a" None None)) alice_db))
  = alice_db.
Proof.
  apply (unsuccessful_requests_change_nothing GET_deleteNote (at_clock 5 0)
           (request as_bob "a" None None) alice_db).
  - vm_compute. discriminate.
  - vm_compute. discriminate.
Defined.

(** Alice's delete leaves the users alone; a registration leaves the
    notes alone. *)
Lemma collections_are_separate_witness :
  users (snd (fst (run (app GET_deleteNote (at_clock 5 0)
                            (request as_alice "a" None None)) alice_db)))
  = users alice_db
  /\ notes (snd (fst (run (app POST_registerUser (at_clock 5 1)
                               (credentials "bob" "pw")) alice_db)))
     = notes alice_db.
Proof.
  split.
  - apply (collections_are_separate GET_deleteNote (at_clock 5 0)
             (request as_alice "a" None None) alice_db).
    discriminate.
  - apply (collections_are_separate POST_registerUser (at_clock 5 1)
             (credentials "bob" "pw") alice_db).
    left. reflexivity.
Defined.

(** Alice registers twice, then bob once. *)
Lemma usernames_stay_unique_witness :
  unique_usernames
    (serve [(POST_registerUser, at_clock 0 1, credentials "alice" "pw");
            (POST_registerUser, at_clock 1 2, credentials "alice" "again");
            (POST_registerUser, at_clock 2 3, credentials "bob" "pw")]
           empty).
Proof.
  apply usernames_stay_unique. constructor.
Defined.

Lemma stored_passwords_are_hashes_witness :
  Forall hashed
    (users (serve [(POST_registerUser, at_clock 0 1, credentials "alice" "pw");
                   (POST_loginUser, at_clock 1 0, credentials "alice" "pw")]
                  empty)).
Proof.
  apply stored_passwords_are_hashes. constructor.
Defined.

(** Alice adds a note and blanks nothing with an empty title. *)
Lemma notes_stay_filled_witness :
  notes_filled
    (serve [(POST_postNote, at_clock 5 1,
             request as_alice "" (Some "t2") (Some "c2"));
            (GET_editNote, at_clock 6 0,
             request as_alice "a" (Some "") (Some "c3"))]
           alice_db).
Proof.
  apply notes_stay_filled. exact alice_db_filled.
Defined.

(** Alice registers at 0 and lists her notes at 100 and at 3600. *)
Lemma issued_token_authenticates_witness :
  run (getAllNotes (at_clock 100 0) (request as_alice "" None None)) alice_db
  = (Sent (mkResponse 200 (response_notes [alice_note])), alice_db,
     [notes_find "alice"])
  /\ run (getAllNotes (at_clock 3600 0) (request as_alice "" None None))
         alice_db
     = (unauthorized, alice_db, []).
Proof.
  destruct (issued_token_authenticates empty alice_db
              (at_clock 0 1) (at_clock 100 0)
              (credentials "alice" "pw") (request as_alice "" None None)
              "alice" "pw")
    as (_ & Hearly & _).
  1: exact reference_verify_sign.
  1: exact reference_verify_expired.
  1-6: first [reflexivity | discriminate | simpl; tauto].
  1: vm_compute; reflexivity.
  1: reflexivity.
  destruct (issued_token_authenticates empty alice_db
              (at_clock 0 1) (at_clock 3600 0)
              (credentials "alice" "pw") (request as_alice "" None None)
              "alice" "pw")
    as (_ & _ & Hlate).
  1: exact reference_verify_sign.
  1: exact reference_verify_expired.
  1-6: first [reflexivity | discriminate | simpl; tauto].
  1: vm_compute; reflexivity.
  1: reflexivity.
  split.
  - apply Hearly. simpl. lia.
  - apply Hlate. simpl. lia.
Defined.

Lemma owner_reads_note_witness :
  run (getNote (at_clock 5 0) (request as_alice "a" None None)) alice_db
  = (Sent (mkResponse 200 (response_note alice_note)), alice_db,
     [notes_findOne "alice" 10]).
Proof.
  apply (owner_reads_note alice_db (at_clock 5 0)
           (request as_alice "a" None None) alice_note).
  - exact alice_db_unique.
  - simpl. auto.
  - apply alice_is_alice.
  - reflexivity.
  - reflexivity.
Defined.

(** Alice sends a new content and an empty title, then reads the note. *)
Lemma update_then_get_witness :
  fst (fst (run (getNote (at_clock 9 0) (request as_alice "a" None None))
                (snd (fst (run (editNote (at_clock 5 0)
                                  (request as_alice "a" (Some "") (Some "c2")))
                               alice_db)))))
  = Sent (mkResponse 200 (response_note (Note.mk 10 "t" "c2" "alice"))).
Proof.
  rewrite (update_then_get alice_db (at_clock 5 0) (at_clock 9 0)
             (request as_alice "a" (Some "") (Some "c2"))
             (request as_alice "a" None None) alice_note).
  - reflexivity.
  - exact alice_db_unique.
  - simpl. auto.
  - apply alice_is_alice.
  - reflexivity.
  - reflexivity.
  - reflexivity.
  - vm_compute. reflexivity.
  - reflexivity.
Defined.

(** Alice deletes her note; bob then tries to delete and to retitle it. *)
Lemma delete_is_final_witness :
  fst (fst (run (deleteNote (at_clock 6 0) (request as_bob "a" (Some "x") None))
                (snd (fst (run (deleteNote (at_clock 5 0)
                                  (request as_alice "a" None None))
                               alice_db)))))
  = not_found
  /\ fst (fst (run (editNote (at_clock 6 0)
                             (request as_bob "a" (Some "x") None))
                   (snd (fst (run (deleteNote (at_clock 5 0)
                                     (request as_alice "a" None None))
                                  alice_db)))))
     = not_found.
Proof.
  destruct (delete_is_final alice_db (at_clock 5 0) (at_clock 6 0)
              (request as_alice "a" None None)
              (request as_bob "a" (Some "x") None) alice_note "bob")
    as (_ & Hdelete & Hedit).
  - exact alice_db_unique.
  - simpl. auto.
  - apply alice_is_alice.
  - reflexivity.
  - reflexivity.
  - vm_compute. reflexivity.
  - reflexivity.
  - rewrite Hdelete, (Hedit eq_refl). split; reflexivity.
Defined.

(** Alice creates a second note and deletes it again. *)
Lemma create_then_delete_restores_witness :
  snd (fst (run (deleteNote (at_clock 6 0) (request as_alice "1" None None))
                (snd (fst (run (postNote (at_clock 5 1)
                                  (request as_alice "" (Some "t2") (Some "c2")))
                               alice_db)))))
  = alice_db.
Proof.
  rewrite (create_then_delete_restores alice_db (at_clock 5 1) (at_clock 6 0)
             (request as_alice "" (Some "t2") (Some "c2"))
             (request as_alice "1" None None) "alice" "t2" "c2").
  - reflexivity.
  - exact reference_hex.
  - vm_compute. reflexivity.
  - reflexivity.
  - discriminate.
  - reflexivity.
  - discriminate.
  - simpl. intros [H | []]. discriminate.
  - vm_compute. reflexivity.
  - reflexivity.
Defined.

Lemma create_appends_to_list_witness :
  fst (fst (run (getAllNotes (at_clock 6 0) (request as_alice "" None None))
                (snd (fst (run (postNote (at_clock 5 1)
                                  (request as_alice "" (Some "t2") (Some "c2")))
                               alice_db)))))
  = Sent (mkResponse 200 (response_notes
      [alice_note; Note.mk 1 "t2" "c2" "alice"])).
Proof.
  apply (create_appends_to_list alice_db (at_clock 5 1) (at_clock 6 0)
           (request as_alice "" (Some "t2") (Some "c2"))
           (request as_alice "" None None) "alice" "t2" "c2").
  - vm_compute. reflexivity.
  - reflexivity.
  - discriminate.
  - reflexivity.
  - discriminate.
  - simpl. intros [H | []]. discriminate.
  - vm_compute. reflexivity.
Defined.

(** Alice retitles her note while her delete of it slips in between. *)
Lemma update_races_with_delete_witness :
  interleave [true; false; true]
    (editNote (at_clock 5 0) (request as_alice "a" (Some "T2") None))
    (deleteNote (at_clock 5 0) (request as_alice "a" None None))
    alice_db
  = (Return (updated "a"), Return (deleted "a"), mkDb [] [] false).
Proof.
  apply (update_races_with_delete alice_db (at_clock 5 0) (at_clock 5 0)
           (request as_alice "a" (Some "T2") None)
           (request as_alice "a" None None) alice_note).
  - exact alice_db_unique.
  - simpl. auto.
  - apply alice_is_alice.
  - apply alice_is_alice.
  - reflexivity.
  - reflexivity.
  - reflexivity.
  - reflexivity.
Defined.

End MoreScenario.
